(** * GitHub MCP server ([src/mcp/servers/github/server.py])

    A shallow embedding of the JSON-RPC gateway: the process invoker
    [_run_git_command], the seven tool handlers, the tool registry returned
    by [handle_tools_list], the dispatcher [handle_tools_call] and the body
    of the transport loop [run].

    Python values are the values [json.loads] produces.  The file system and
    the external command are an interface ([Platform]); every call the code
    makes to them is recorded in a trace, so that "the command is never
    invoked" is a statement about the trace. *)

From Stdlib Require Import String Ascii List ZArith Bool Lia PrimFloat DecimalString.
Import ListNotations.
Open Scope string_scope.

(** ** Python values *)

#[local] Set Warnings "-register-all".

Inductive json : Type :=
| JNull
| JBool (b : bool)
| JInt (n : Z)
| JFloat (f : float)
| JStr (s : string)
| JArr (l : list json)
| JObj (d : list (string * json)).

(** A dict keeps its items in insertion order; [json.loads] yields one item
    per key. *)
Definition dict := list (string * json).

Fixpoint dict_get (k : string) (d : dict) : option json :=
  match d with
  | [] => None
  | (k', v) :: d' => if String.eqb k' k then Some v else dict_get k d'
  end.

(** [d.get(k, default)] *)
Definition get_or (d : dict) (k : string) (default : json) : json :=
  match dict_get k d with
  | Some v => v
  | None => default
  end.

(** [del d[k]], used to state "the argument is absent". *)
Fixpoint dict_remove (k : string) (d : dict) : dict :=
  match d with
  | [] => []
  | (k', v) :: d' =>
      if String.eqb k' k then dict_remove k d' else (k', v) :: dict_remove k d'
  end.

(** [bool(v)]: None, False, 0, 0.0, the empty string, list and dict are
    falsy. *)
Definition truthy (v : json) : bool :=
  match v with
  | JNull => false
  | JBool b => b
  | JInt n => negb (n =? 0)%Z
  | JFloat f => negb (PrimFloat.eqb f PrimFloat.zero)
  | JStr s => negb (String.eqb s "")
  | JArr l => match l with [] => false | _ => true end
  | JObj d => match d with [] => false | _ => true end
  end.

(** [v == "literal"] *)
Definition eq_str (v : json) (s : string) : bool :=
  match v with
  | JStr s' => String.eqb s' s
  | _ => false
  end.

(** [v is not None] *)
Definition is_not_None (v : json) : bool :=
  match v with
  | JNull => false
  | _ => true
  end.

Definition type_name (v : json) : string :=
  match v with
  | JNull => "NoneType"
  | JBool _ => "bool"
  | JInt _ => "int"
  | JFloat _ => "float"
  | JStr _ => "str"
  | JArr _ => "list"
  | JObj _ => "dict"
  end.

Definition nl : string := String (ascii_of_nat 10) EmptyString.

(** ** Exceptions *)

Record exn : Type := Exn { exn_class : string; exn_str : string }.

Definition AttributeError (v : json) (attr : string) : exn :=
  Exn "AttributeError"
      ("'" ++ type_name v ++ "' object has no attribute '" ++ attr ++ "'").

Definition KeyError (k : string) : exn := Exn "KeyError" ("'" ++ k ++ "'").

Definition TypeError (msg : string) : exn := Exn "TypeError" msg.

(** ** The outside world *)

(** What [subprocess.run(..., capture_output=True, text=True)] returns. *)
Record CompletedProcess : Type := Completed {
  returncode : Z;
  stdout : string;
  stderr : string
}.

(** The collaborators the server only calls: [os.path.exists],
    [subprocess.run], [json.loads], and [repr] for the values whose [str()]
    is their [repr] (floats, lists, dicts).  Both system calls may raise, and
    the world may answer differently each time. *)
Class Platform : Type := {
  World : Type;
  os_path_exists : World -> json -> (exn + bool) * World;
  subprocess_run : World -> list json -> json -> (exn + CompletedProcess) * World;
  json_loads : string -> exn + json;
  py_repr : json -> string
}.

(** One entry per call into the world, with what the world answered. *)
Inductive event : Type :=
| EvExists (cwd : json) (answer : exn + bool)
| EvRun (command : list json) (cwd : json) (outcome : exn + CompletedProcess).

(** The faults an operation can meet: the directory is absent, the command
    exits with a nonzero code, or a system call raises. *)
Definition is_fault (e : event) : bool :=
  match e with
  | EvExists _ (inr ex) => negb ex
  | EvRun _ _ (inr proc) => negb (returncode proc =? 0)%Z
  | EvExists _ (inl _) | EvRun _ _ (inl _) => true
  end.

Section Server.

Context {P : Platform}.

(** [str(v)], as the f-strings of the server apply it. *)
Definition py_str (v : json) : string :=
  match v with
  | JNull => "None"
  | JBool true => "True"
  | JBool false => "False"
  | JInt n => NilZero.string_of_int (Z.to_int n)
  | JStr s => s
  | _ => py_repr v
  end.

(** ** Server state and the monad of its methods *)

Record state : Type := State {
  st_world : World;
  st_trace : list event;
  st_stdout : list json;
  st_stderr : list string
}.

Definition M (A : Type) : Type := state -> (exn + A) * state.

Definition ret {A} (a : A) : M A := fun s => (inr a, s).

Definition raise {A} (e : exn) : M A := fun s => (inl e, s).

Definition bind {A B} (m : M A) (k : A -> M B) : M B :=
  fun s =>
    match m s with
    | (inl e, s') => (inl e, s')
    | (inr a, s') => k a s'
    end.

(** [try: m  except Exception as e: h e] *)
Definition try_except {A} (m : M A) (h : exn -> M A) : M A :=
  fun s =>
    match m s with
    | (inl e, s') => h e s'
    | (inr a, s') => (inr a, s')
    end.

Notation "x <- m ;; k" := (bind m (fun x => k))
  (at level 61, m at next level, right associativity).
Notation "m ;;; k" := (bind m (fun _ => k))
  (at level 61, right associativity).

Definition path_exists (cwd : json) : M bool :=
  fun s =>
    let (r, w) := os_path_exists (st_world s) cwd in
    (r, State w (st_trace s ++ [EvExists cwd r]) (st_stdout s) (st_stderr s)).

Definition run_process (command : list json) (cwd : json) : M CompletedProcess :=
  fun s =>
    let (r, w) := subprocess_run (st_world s) command cwd in
    (r, State w (st_trace s ++ [EvRun command cwd r]) (st_stdout s) (st_stderr s)).

(** [print(json.dumps(response))] *)
Definition print_stdout (response : json) : M unit :=
  fun s =>
    (inr tt, State (st_world s) (st_trace s) (st_stdout s ++ [response]) (st_stderr s)).

(** [print(text, file=sys.stderr)] *)
Definition print_stderr (text : string) : M unit :=
  fun s =>
    (inr tt, State (st_world s) (st_trace s) (st_stdout s) (st_stderr s ++ [text])).

(** [v.get(k, default)]: only a dict has [get]. *)
Definition py_get (v : json) (k : string) (default : json) : M json :=
  match v with
  | JObj d => ret (get_or d k default)
  | _ => raise (AttributeError v "get")
  end.

(** [d[k]] *)
Definition dict_index (d : dict) (k : string) : M json :=
  match dict_get k d with
  | Some v => ret v
  | None => raise (KeyError k)
  end.

(** ** Process invoker *)

Definition _run_git_command (command : list json) (cwd : json) : M dict :=
  try_except
    (ex <- path_exists cwd ;;
     if negb ex then
       ret [("success", JBool false);
            ("error", JStr ("Directory does not exist: " ++ py_str cwd))]
     else
       result <- run_process command cwd ;;
       ret [("success", JBool (returncode result =? 0)%Z);
            ("stdout", JStr (stdout result));
            ("stderr", JStr (stderr result));
            ("returncode", JInt (returncode result))])
    (fun e => ret [("success", JBool false); ("error", JStr (exn_str e))]).

(** [result.get('error', result.get('stderr', 'Unknown error'))]; the inner
    [get] is evaluated first, as Python evaluates arguments. *)
Definition error_of (result : dict) : json :=
  get_or result "error" (get_or result "stderr" (JStr "Unknown error")).

(** ** Tool handlers *)

Definition _handle_git_status (args : json) : M json :=
  repo_path <- py_get args "repo_path" JNull ;;
  if negb (truthy repo_path) then ret (JStr "Error: repo_path is required")
  else
    result <- _run_git_command [JStr "git"; JStr "status"] repo_path ;;
    success <- dict_index result "success" ;;
    if truthy success then
      out <- dict_index result "stdout" ;;
      ret (JStr ("Git status for " ++ py_str repo_path ++ ":" ++ nl ++ py_str out))
    else
      ret (JStr ("Error: " ++ py_str (error_of result))).

(** The tail of [_handle_git_branch], after [result] is bound. *)
Definition branch_summary (action : json) (result : dict) : M json :=
  success <- dict_index result "success" ;;
  if truthy success then
    out <- dict_index result "stdout" ;;
    let output :=
      if truthy out then out
      else JStr ("Successfully performed " ++ py_str action ++ " operation") in
    if eq_str action "checkout" then
      err <- dict_index result "stderr" ;;
      if truthy err then
        err' <- dict_index result "stderr" ;;
        ret err'
      else ret output
    else ret output
  else
    ret (JStr ("Error: " ++ py_str (error_of result))).

Definition _handle_git_branch (args : json) : M json :=
  repo_path <- py_get args "repo_path" JNull ;;
  action <- py_get args "action" JNull ;;
  branch_name <- py_get args "branch_name" JNull ;;
  if negb (truthy repo_path) || negb (truthy action) then
    ret (JStr "Error: repo_path and action are required")
  else if eq_str action "list" then
    result <- _run_git_command [JStr "git"; JStr "branch"; JStr "-a"] repo_path ;;
    branch_summary action result
  else if eq_str action "create" then
    if negb (truthy branch_name) then
      ret (JStr "Error: branch_name is required for create action")
    else
      result <- _run_git_command [JStr "git"; JStr "branch"; branch_name] repo_path ;;
      branch_summary action result
  else if eq_str action "delete" then
    if negb (truthy branch_name) then
      ret (JStr "Error: branch_name is required for delete action")
    else
      result <- _run_git_command
                  [JStr "git"; JStr "branch"; JStr "-d"; branch_name] repo_path ;;
      branch_summary action result
  else if eq_str action "checkout" then
    if negb (truthy branch_name) then
      ret (JStr "Error: branch_name is required for checkout action")
    else
      result <- _run_git_command [JStr "git"; JStr "checkout"; branch_name] repo_path ;;
      branch_summary action result
  else
    ret (JStr ("Error: Unknown action: " ++ py_str action)).

(** The commit step of [_handle_git_commit]. *)
Definition create_commit (repo_path message : json) : M json :=
  result <- _run_git_command [JStr "git"; JStr "commit"; JStr "-m"; message] repo_path ;;
  success <- dict_index result "success" ;;
  if truthy success then
    out <- dict_index result "stdout" ;;
    ret (JStr ("Commit created successfully:" ++ nl ++ py_str out))
  else
    ret (JStr ("Error: " ++ py_str (error_of result))).

Definition _handle_git_commit (args : json) : M json :=
  repo_path <- py_get args "repo_path" JNull ;;
  message <- py_get args "message" JNull ;;
  add_all <- py_get args "add_all" (JBool false) ;;
  if negb (truthy repo_path) || negb (truthy message) then
    ret (JStr "Error: repo_path and message are required")
  else if truthy add_all then
    add_result <- _run_git_command [JStr "git"; JStr "add"; JStr "-A"] repo_path ;;
    success <- dict_index add_result "success" ;;
    if negb (truthy success) then
      ret (JStr ("Error adding files: " ++ py_str (error_of add_result)))
    else create_commit repo_path message
  else create_commit repo_path message.

Definition _handle_git_push (args : json) : M json :=
  repo_path <- py_get args "repo_path" JNull ;;
  branch <- py_get args "branch" JNull ;;
  force <- py_get args "force" (JBool false) ;;
  if negb (truthy repo_path) then ret (JStr "Error: repo_path is required")
  else
    let cmd := [JStr "git"; JStr "push"] in
    let cmd := if truthy force then (cmd ++ [JStr "--force"])%list else cmd in
    let cmd := if truthy branch then (cmd ++ [JStr "origin"; branch])%list else cmd in
    result <- _run_git_command cmd repo_path ;;
    success <- dict_index result "success" ;;
    if truthy success then
      out <- dict_index result "stdout" ;;
      if truthy out then ret out
      else
        err <- dict_index result "stderr" ;;
        if truthy err then ret err
        else ret (JStr "Push completed successfully")
    else
      ret (JStr ("Error: " ++ py_str (error_of result))).

Definition _handle_git_pull (args : json) : M json :=
  repo_path <- py_get args "repo_path" JNull ;;
  branch <- py_get args "branch" JNull ;;
  if negb (truthy repo_path) then ret (JStr "Error: repo_path is required")
  else
    let cmd := [JStr "git"; JStr "pull"] in
    let cmd := if truthy branch then (cmd ++ [JStr "origin"; branch])%list else cmd in
    result <- _run_git_command cmd repo_path ;;
    success <- dict_index result "success" ;;
    if truthy success then
      out <- dict_index result "stdout" ;;
      ret (JStr ("Pull completed successfully:" ++ nl ++ py_str out))
    else
      ret (JStr ("Error: " ++ py_str (error_of result))).

Definition _handle_git_log (args : json) : M json :=
  repo_path <- py_get args "repo_path" JNull ;;
  limit <- py_get args "limit" (JInt 10) ;;
  if negb (truthy repo_path) then ret (JStr "Error: repo_path is required")
  else
    result <- _run_git_command
                [JStr "git"; JStr "log"; JStr ("-" ++ py_str limit);
                 JStr "--oneline"; JStr "--decorate"; JStr "--graph"]
                repo_path ;;
    success <- dict_index result "success" ;;
    if truthy success then
      out <- dict_index result "stdout" ;;
      ret (JStr ("Git log (last " ++ py_str limit ++ " commits):" ++ nl ++ py_str out))
    else
      ret (JStr ("Error: " ++ py_str (error_of result))).

(** [["git", "add"] + files]: list concatenation, a [TypeError] for any
    other right operand. *)
Definition list_concat (l : list json) (v : json) : M (list json) :=
  match v with
  | JArr l' => ret (l ++ l')%list
  | _ =>
      raise (TypeError ("can only concatenate list (not " ++ String (ascii_of_nat 34)
                          (type_name v ++ String (ascii_of_nat 34) ") to list")))
  end.

(** [sep.join(items)] needs an iterable of strings. *)
Fixpoint join_items (sep : string) (i : nat) (items : list json) : exn + string :=
  match items with
  | [] => inr ""
  | v :: rest =>
      match v with
      | JStr s =>
          match rest with
          | [] => inr s
          | _ =>
              match join_items sep (S i) rest with
              | inr t => inr (s ++ sep ++ t)
              | inl e => inl e
              end
          end
      | _ =>
          inl (TypeError ("sequence item " ++ NilZero.string_of_uint (Nat.to_uint i)
                            ++ ": expected str instance, " ++ type_name v ++ " found"))
      end
  end.

Definition str_join (sep : string) (v : json) : M string :=
  match v with
  | JArr items =>
      match join_items sep 0 items with
      | inr t => ret t
      | inl e => raise e
      end
  | _ => raise (TypeError "can only join an iterable")
      (* not reached: [list_concat] has already required a list *)
  end.

Definition _handle_git_add (args : json) : M json :=
  repo_path <- py_get args "repo_path" JNull ;;
  files <- py_get args "files" (JArr []) ;;
  if negb (truthy repo_path) || negb (truthy files) then
    ret (JStr "Error: repo_path and files are required")
  else
    cmd <- list_concat [JStr "git"; JStr "add"] files ;;
    result <- _run_git_command cmd repo_path ;;
    success <- dict_index result "success" ;;
    if truthy success then
      joined <- str_join ", " files ;;
      ret (JStr ("Files staged successfully: " ++ joined))
    else
      ret (JStr ("Error: " ++ py_str (error_of result))).

(** ** Tool registry *)

Definition prop (type description : string) : string -> string * json :=
  fun name => (name, JObj [("type", JStr type); ("description", JStr description)]).

Definition repo_path_prop : string * json :=
  prop "string" "The absolute path to the git repository" "repo_path".

Definition descriptor (name description : string) (properties : dict)
    (required : list string) : json :=
  JObj [("name", JStr name);
        ("description", JStr description);
        ("inputSchema",
         JObj [("type", JStr "object");
               ("properties", JObj properties);
               ("required", JArr (map JStr required))])].

(** The literal [tools] of [handle_tools_list]. *)
Definition tools : list json :=
  [ descriptor "git_status" "Get the current git status of a repository"
      [repo_path_prop]
      ["repo_path"];
    descriptor "git_branch" "List, create, or delete git branches"
      [repo_path_prop;
       ("action",
        JObj [("type", JStr "string");
              ("enum", JArr [JStr "list"; JStr "create"; JStr "delete"; JStr "checkout"]);
              ("description", JStr "The branch operation to perform")]);
       prop "string" "The name of the branch (required for create, delete, checkout)"
         "branch_name"]
      ["repo_path"; "action"];
    descriptor "git_commit" "Create a git commit with the specified message"
      [repo_path_prop;
       prop "string" "The commit message" "message";
       ("add_all",
        JObj [("type", JStr "boolean");
              ("description",
               JStr "Whether to add all changed files before committing (git add -A)");
              ("default", JBool false)])]
      ["repo_path"; "message"];
    descriptor "git_push" "Push commits to the remote repository"
      [repo_path_prop;
       prop "string" "The branch to push (optional, defaults to current branch)" "branch";
       ("force",
        JObj [("type", JStr "boolean");
              ("description", JStr "Whether to force push");
              ("default", JBool false)])]
      ["repo_path"];
    descriptor "git_pull" "Pull changes from the remote repository"
      [repo_path_prop;
       prop "string" "The branch to pull (optional, defaults to current branch)" "branch"]
      ["repo_path"];
    descriptor "git_log" "Show git commit history"
      [repo_path_prop;
       ("limit",
        JObj [("type", JStr "integer");
              ("description", JStr "Number of commits to show");
              ("default", JInt 10)])]
      ["repo_path"];
    descriptor "git_add" "Stage files for commit"
      [repo_path_prop;
       ("files",
        JObj [("type", JStr "array");
              ("items", JObj [("type", JStr "string")]);
              ("description", JStr "List of files to add (use ['.'] to add all)")])]
      ["repo_path"; "files"] ].

(** ** Dispatch engine *)

Definition _send_response (result request_id : json) : M unit :=
  let response := [("jsonrpc", JStr "2.0"); ("result", result)] in
  let response :=
    if is_not_None request_id then (response ++ [("id", request_id)])%list
    else response in
  print_stdout (JObj response).

Definition _send_error (code : Z) (message : string) (request_id : json) : M unit :=
  let response :=
    [("jsonrpc", JStr "2.0");
     ("error", JObj [("code", JInt code); ("message", JStr message)])] in
  let response :=
    if is_not_None request_id then (response ++ [("id", request_id)])%list
    else response in
  print_stdout (JObj response).

Definition handle_initialize (params request_id : json) : M unit :=
  _send_response
    (JObj [("protocolVersion", JStr "2024-11-05");
           ("capabilities", JObj [("tools", JObj [])]);
           ("serverInfo",
            JObj [("name", JStr "github-mcp-server"); ("version", JStr "1.0.0")])])
    request_id.

Definition handle_tools_list (request_id : json) : M unit :=
  _send_response (JObj [("tools", JArr tools)]) request_id.

(** The seven branches of the [if]/[elif] chain of [handle_tools_call]. *)
Inductive tool : Type :=
| git_status | git_branch | git_commit | git_push | git_pull | git_log | git_add.

Definition all_tools : list tool :=
  [git_status; git_branch; git_commit; git_push; git_pull; git_log; git_add].

Definition tool_name (t : tool) : string :=
  match t with
  | git_status => "git_status"
  | git_branch => "git_branch"
  | git_commit => "git_commit"
  | git_push => "git_push"
  | git_pull => "git_pull"
  | git_log => "git_log"
  | git_add => "git_add"
  end.

Definition handler (t : tool) : json -> M json :=
  match t with
  | git_status => _handle_git_status
  | git_branch => _handle_git_branch
  | git_commit => _handle_git_commit
  | git_push => _handle_git_push
  | git_pull => _handle_git_pull
  | git_log => _handle_git_log
  | git_add => _handle_git_add
  end.

(** The chain of comparisons [tool_name == "git_status"], ..., in order. *)
Definition select_tool (name : json) : option tool :=
  if eq_str name "git_status" then Some git_status
  else if eq_str name "git_branch" then Some git_branch
  else if eq_str name "git_commit" then Some git_commit
  else if eq_str name "git_push" then Some git_push
  else if eq_str name "git_pull" then Some git_pull
  else if eq_str name "git_log" then Some git_log
  else if eq_str name "git_add" then Some git_add
  else None.

Definition text_content (result : json) : json :=
  JObj [("content", JArr [JObj [("type", JStr "text"); ("text", result)]])].

Definition handle_tools_call (params request_id : json) : M unit :=
  name <- py_get params "name" JNull ;;
  arguments <- py_get params "arguments" (JObj []) ;;
  match select_tool name with
  | Some t =>
      result <- handler t arguments ;;
      _send_response (text_content result) request_id
  | None =>
      _send_error (-32601) ("Unknown tool: " ++ py_str name) request_id
  end.

(** The body of the loop of [run] once the line is parsed. *)
Definition handle_request (request : json) : M unit :=
  method <- py_get request "method" JNull ;;
  params <- py_get request "params" (JObj []) ;;
  request_id <- py_get request "id" JNull ;;
  if eq_str method "initialize" then handle_initialize params request_id
  else if eq_str method "initialized" then ret tt
  else if eq_str method "tools/list" then handle_tools_list request_id
  else if eq_str method "tools/call" then handle_tools_call params request_id
  else if is_not_None request_id then
    _send_error (-32601) ("Method not found: " ++ py_str method) request_id
  else ret tt.

(** ** Transport loop *)

(** One iteration of [while True] on a non-empty line: a [JSONDecodeError]
    is answered with a parse error; any other exception is logged to
    stderr. *)
Definition serve_line (line : string) (s : state) : state :=
  snd (try_except
         (match json_loads line with
          | inr request => handle_request request
          | inl e =>
              if String.eqb (exn_class e) "JSONDecodeError" then
                _send_error (-32700) ("Parse error: " ++ exn_str e) JNull
              else raise e
          end)
         (fun e => print_stderr ("Unexpected error: " ++ exn_str e))
         s).

(** [lines] are the successive results of [sys.stdin.readline()]; after the
    last one [readline] returns the empty string, as it does at the end of
    the stream. *)
Fixpoint run (lines : list string) (s : state) : state :=
  match lines with
  | [] => s
  | line :: rest =>
      if String.eqb line "" then s else run rest (serve_line line s)
  end.

End Server.

Arguments state : clear implicits.
Arguments M : clear implicits.

(** ** A scripted world for examples

    The directories of [dirs] exist; each run of a command consumes the next
    scripted outcome, and fails to launch when the script is exhausted; no
    line parses. *)
Definition scripted (dirs : list string) : Platform := {|
  World := list (exn + CompletedProcess);
  os_path_exists w cwd :=
    (match cwd with
     | JStr p => inr (existsb (String.eqb p) dirs)
     | JInt _ | JBool _ => inr false
     | _ => inl (TypeError "stat: path should be string, bytes, os.PathLike or integer")
     end, w);
  subprocess_run w command cwd :=
    match w with
    | outcome :: w' => (outcome, w')
    | [] => (inl (Exn "FileNotFoundError" "[Errno 2] No such file or directory: 'git'"), [])
    end;
  json_loads line := inl (Exn "JSONDecodeError" "Expecting value: line 1 column 1 (char 0)");
  py_repr v := "<repr>"
|}.

(** A machine with no directory at all, and one with a repository. *)
Definition no_dirs : Platform := scripted [].
Definition one_repo : Platform := scripted ["/repo"].

(** ** Definitions used by the statements *)

(** What a method adds to the trace, and that it prints nothing. *)
Definition extends {P : Platform} (s s' : state P) (delta : list event) : Prop :=
  st_trace s' = (st_trace s ++ delta)%list /\
  st_stdout s' = st_stdout s /\
  st_stderr s' = st_stderr s.

(** The three shapes of an Invocation Result, each with the trace of the
    call that produced it. *)
Inductive invocation : dict -> list event -> Prop :=
| inv_done out err delta :
    existsb is_fault delta = false ->
    invocation [("success", JBool true); ("stdout", JStr out);
                ("stderr", JStr err); ("returncode", JInt 0)] delta
| inv_exit rc out err delta :
    rc <> 0%Z ->
    invocation [("success", JBool false); ("stdout", JStr out);
                ("stderr", JStr err); ("returncode", JInt rc)] delta
| inv_error msg delta :
    invocation [("success", JBool false); ("error", JStr msg)] delta.

(** The names a descriptor's [inputSchema] lists under ["required"]. *)
Definition json_strings (l : list json) : list string :=
  flat_map (fun v => match v with JStr s => [s] | _ => [] end) l.

Definition descriptor_name (d : json) : json :=
  match d with
  | JObj o => get_or o "name" JNull
  | _ => JNull
  end.

Definition descriptor_required (d : json) : list string :=
  match d with
  | JObj o =>
      match get_or o "inputSchema" JNull with
      | JObj schema =>
          match get_or schema "required" JNull with
          | JArr l => json_strings l
          | _ => []
          end
      | _ => []
      end
  | _ => []
  end.

(** The ["required"] list of the registry entry of tool [t]. *)
Definition schema_required (t : tool) : list string :=
  match find (fun d => eq_str (descriptor_name d) (tool_name t)) tools with
  | Some d => descriptor_required d
  | None => []
  end.

(** [git_branch] also needs [branch_name] for three of its actions. *)
Definition branch_needs_name (args : dict) : bool :=
  let action := get_or args "action" JNull in
  eq_str action "create" || eq_str action "delete" || eq_str action "checkout".

Definition required_args (t : tool) (args : dict) : list string :=
  match t with
  | git_branch =>
      if branch_needs_name args then (schema_required t ++ ["branch_name"])%list
      else schema_required t
  | _ => schema_required t
  end.

Definition absent (args : dict) (k : string) : bool :=
  match dict_get k args with
  | None => true
  | Some _ => false
  end.

(** Some required argument is absent from the call. *)
Definition missing_required (t : tool) (args : dict) : bool :=
  existsb (absent args) (required_args t args).

(** The text of the first check of each handler. *)
Definition required_message (t : tool) : string :=
  match t with
  | git_status | git_push | git_pull | git_log => "Error: repo_path is required"
  | git_branch => "Error: repo_path and action are required"
  | git_commit => "Error: repo_path and message are required"
  | git_add => "Error: repo_path and files are required"
  end.

Definition is_commit_run (e : event) : bool :=
  match e with
  | EvRun (JStr "git" :: JStr "commit" :: _) _ _ => true
  | _ => false
  end.

(** How a handler words a fault: ["Error:"], or ["Error adding files:"] from
    the staging step of [git_commit], which ends before any commit. *)
Definition fault_report (t : tool) (args : dict) (delta : list event)
    (text : string) : Prop :=
  prefix "Error:" text = true \/
  (t = git_commit /\
   truthy (get_or args "add_all" (JBool false)) = true /\
   existsb is_commit_run delta = false /\
   prefix "Error adding files:" text = true).

(** A call of tool [t] that passes every required argument and nothing
    else ([git_branch] lists). *)
Definition plain_call (t : tool) (repo_path : string) : dict :=
  match t with
  | git_status | git_push | git_pull | git_log => [("repo_path", JStr repo_path)]
  | git_branch => [("repo_path", JStr repo_path); ("action", JStr "list")]
  | git_commit => [("repo_path", JStr repo_path); ("message", JStr "update")]
  | git_add => [("repo_path", JStr repo_path); ("files", JArr [JStr "."])]
  end.

(** The handler's own required-argument check refuses the call: it returns
    the text of that check and asks nothing of the world. *)
Definition rejects {P : Platform} (t : tool) (args : dict) : Prop :=
  forall s : state P,
    handler t (JObj args) s = (inr (JStr (required_message t)), s).

(** What [_send_response] and [_send_error] print. *)
Definition envelope (member : string) (payload request_id : json) : json :=
  JObj ([("jsonrpc", JStr "2.0"); (member, payload)]
          ++ (if is_not_None request_id then [("id", request_id)] else []))%list.

Definition emit {P : Platform} (s : state P) (response : json) : state P :=
  State (st_world s) (st_trace s) (st_stdout s ++ [response]) (st_stderr s).

(** The printed envelope has no [id] member. *)
Definition lacks_id (response : json) : Prop :=
  match response with
  | JObj o => dict_get "id" o = None
  | _ => False
  end.

(** ** Definitions used by the further properties *)

(** The exact paths through [_run_git_command]: the calls it makes, in
    order, with their answers, and the result it builds from them. *)
Inductive invoked {P : Platform} (command : list json) (cwd : json) :
    list event -> dict -> Prop :=
| invoked_stat_raises e :
    invoked command cwd
      [EvExists cwd (inl e)]
      [("success", JBool false); ("error", JStr (exn_str e))]
| invoked_no_directory :
    invoked command cwd
      [EvExists cwd (inr false)]
      [("success", JBool false);
       ("error", JStr ("Directory does not exist: " ++ py_str cwd))]
| invoked_launch_raises e :
    invoked command cwd
      [EvExists cwd (inr true); EvRun command cwd (inl e)]
      [("success", JBool false); ("error", JStr (exn_str e))]
| invoked_completed proc :
    invoked command cwd
      [EvExists cwd (inr true); EvRun command cwd (inr proc)]
      [("success", JBool (returncode proc =? 0)%Z);
       ("stdout", JStr (stdout proc));
       ("stderr", JStr (stderr proc));
       ("returncode", JInt (returncode proc))].

(** The command was handed to [subprocess.run]. *)
Definition is_run (e : event) : bool :=
  match e with
  | EvRun _ _ _ => true
  | EvExists _ _ => false
  end.

(** The call concerns directory [repo_path], and what is run is [git]. *)
Definition at_repo (repo_path : json) (e : event) : Prop :=
  match e with
  | EvExists cwd _ => cwd = repo_path
  | EvRun (JStr "git" :: _) cwd _ => cwd = repo_path
  | EvRun _ _ _ => False
  end.

(** The [id] a parsed line carries, None when it has none. *)
Definition id_of (request : json) : json :=
  match request with
  | JObj d => get_or d "id" JNull
  | _ => JNull
  end.

(** A printed line is a result envelope or an error envelope, with the
    given [id] (no [id] member when it is None). *)
Definition answers_to (request_id response : json) : Prop :=
  exists member payload,
    (member = "result" \/ member = "error") /\
    response = envelope member payload request_id.

Definition is_str (v : json) : bool :=
  match v with
  | JStr _ => true
  | _ => false
  end.

Definition is_list (v : json) : bool :=
  match v with
  | JArr _ => true
  | _ => false
  end.

(** [files] as the schema of [git_add] describes it, or falsy. *)
Definition files_well_typed (args : dict) : bool :=
  match get_or args "files" (JArr []) with
  | JArr l => forallb is_str l
  | v => negb (truthy v)
  end.

(** The state with the same world and nothing logged or printed yet, and
    the state [s] continued by what a run from such a state logged and
    printed. *)
Definition fresh {P : Platform} (s : state P) : state P :=
  State (st_world s) [] [] [].

Definition after {P : Platform} (s d : state P) : state P :=
  State (st_world d)
        (st_trace s ++ st_trace d)
        (st_stdout s ++ st_stdout d)
        (st_stderr s ++ st_stderr d).

(** [m] reads nothing but the world: run from [s], it does what it does
    from [fresh s], appended to the logs of [s]. *)
Definition stateless {P : Platform} {A} (m : M P A) : Prop :=
  forall s, m s = (fst (m (fresh s)), after s (snd (m (fresh s)))).

(** The command [_handle_git_push] builds. *)
Definition push_command (args : dict) : list json :=
  ([JStr "git"; JStr "push"]
     ++ (if truthy (get_or args "force" (JBool false)) then [JStr "--force"] else [])
     ++ (if truthy (get_or args "branch" JNull)
         then [JStr "origin"; get_or args "branch" JNull] else []))%list.

(** [a or b or c] on texts. *)
Definition first_non_empty (a b c : string) : string :=
  if String.eqb a "" then if String.eqb b "" then c else b else a.

(** The defaults a descriptor declares for its properties. *)
Definition descriptor_defaults (d : json) : list (string * json) :=
  match d with
  | JObj o =>
      match get_or o "inputSchema" JNull with
      | JObj schema =>
          match get_or schema "properties" JNull with
          | JObj properties =>
              flat_map
                (fun entry =>
                   match snd entry with
                   | JObj property =>
                       match dict_get "default" property with
                       | Some v => [(fst entry, v)]
                       | None => []
                       end
                   | _ => []
                   end)
                properties
          | _ => []
          end
      | _ => []
      end
  | _ => []
  end.

Definition schema_defaults (t : tool) : list (string * json) :=
  match find (fun d => eq_str (descriptor_name d) (tool_name t)) tools with
  | Some d => descriptor_defaults d
  | None => []
  end.

(** The values the registry lists under [enum] for [action] of
    [git_branch]. *)
Definition action_enum : list json :=
  match find (fun d => eq_str (descriptor_name d) "git_branch") tools with
  | Some (JObj o) =>
      match get_or o "inputSchema" JNull with
      | JObj schema =>
          match get_or schema "properties" JNull with
          | JObj properties =>
              match get_or properties "action" JNull with
              | JObj property =>
                  match get_or property "enum" JNull with
                  | JArr values => values
                  | _ => []
                  end
              | _ => []
              end
          | _ => []
          end
      | _ => []
      end
  | _ => []
  end.

(** [_handle_git_branch] refuses the action as unknown, whatever else the
    call holds. *)
Definition unknown_action {P : Platform} (action : json) : Prop :=
  forall args (s : state P),
    truthy (get_or args "repo_path" JNull) = true ->
    get_or args "action" JNull = action ->
    _handle_git_branch (JObj args) s =
      (inr (JStr ("Error: Unknown action: " ++ py_str action)), s).

(** A scripted world whose parser knows the lines of [table]. *)
Definition scripted_parser (table : list (string * json)) (dirs : list string) :
    Platform := {|
  World := list (exn + CompletedProcess);
  os_path_exists := os_path_exists (Platform := scripted dirs);
  subprocess_run := subprocess_run (Platform := scripted dirs);
  json_loads line :=
    match find (fun entry => String.eqb (fst entry) line) table with
    | Some entry => inr (snd entry)
    | None => json_loads (Platform := scripted dirs) line
    end;
  py_repr := py_repr (Platform := scripted dirs)
|}.

(** One line that parses, to a [git_status] call whose arguments are null. *)
Definition null_arguments : Platform :=
  scripted_parser
    [("status",
      JObj [("method", JStr "tools/call");
            ("params", JObj [("name", JStr "git_status"); ("arguments", JNull)]);
            ("id", JInt 4)])]
    ["/repo"].

(** ** Tactics *)

(** Unfold a handler down to the calls of [_run_git_command]. *)
Ltac open_handler :=
  cbn [handler];
  unfold _handle_git_status, _handle_git_branch, _handle_git_commit,
    _handle_git_push, _handle_git_pull, _handle_git_log, _handle_git_add,
    create_commit, branch_summary, list_concat, str_join;
  unfold bind, py_get, ret, raise; cbn beta iota.

(** * The process invoker *)

Section Invoker.

Context {P : Platform}.

Lemma run_git_missing_directory command cwd (s : state P) w :
  os_path_exists (st_world s) cwd = (inr false, w) ->
  _run_git_command command cwd s =
    (inr [("success", JBool false);
          ("error", JStr ("Directory does not exist: " ++ py_str cwd))],
     State w (st_trace s ++ [EvExists cwd (inr false)]) (st_stdout s) (st_stderr s)).
Proof.
  intros H. unfold _run_git_command, try_except, bind, path_exists.
  rewrite H. reflexivity.
Qed.

Lemma run_git_completed command cwd (s : state P) w w' proc :
  os_path_exists (st_world s) cwd = (inr true, w) ->
  subprocess_run w command cwd = (inr proc, w') ->
  _run_git_command command cwd s =
    (inr [("success", JBool (returncode proc =? 0)%Z);
          ("stdout", JStr (stdout proc));
          ("stderr", JStr (stderr proc));
          ("returncode", JInt (returncode proc))],
     State w' (st_trace s ++ [EvExists cwd (inr true); EvRun command cwd (inr proc)])
           (st_stdout s) (st_stderr s)).
Proof.
  intros H1 H2. unfold _run_git_command, try_except, bind, path_exists, run_process.
  rewrite H1. cbn. rewrite H2. cbn. rewrite <- app_assoc. reflexivity.
Qed.

(** The invoker never raises: it returns one of the three shapes, after the
    existence check and at most one run of [command], and prints nothing. *)
Lemma run_git_cases command cwd (s : state P) :
  exists result s' r delta,
    _run_git_command command cwd s = (inr result, s') /\
    extends s s' (EvExists cwd r :: delta) /\
    invocation result (EvExists cwd r :: delta) /\
    (delta = [] \/ exists o, delta = [EvRun command cwd o]).
Proof.
  unfold _run_git_command, try_except, bind, path_exists, run_process, extends.
  destruct (os_path_exists (st_world s) cwd) as [[e | [|]] w] eqn:H1; cbn.
  - do 4 eexists. split; [reflexivity|]. cbn. repeat split; [constructor | now left].
  - destruct (subprocess_run w command cwd) as [[e | proc] w'] eqn:H2; cbn.
    + do 4 eexists. split; [reflexivity|]. cbn. rewrite <- app_assoc.
      repeat split; [constructor | right; eauto].
    + do 4 eexists. split; [reflexivity|]. cbn. rewrite <- app_assoc.
      repeat split; [| right; eauto].
      destruct (returncode proc =? 0)%Z eqn:Hrc.
      * apply Z.eqb_eq in Hrc. rewrite Hrc. constructor.
        cbn. rewrite Hrc. reflexivity.
      * apply Z.eqb_neq in Hrc. constructor. exact Hrc.
  - do 4 eexists. split; [reflexivity|]. cbn. repeat split; [constructor | now left].
Qed.

End Invoker.

(** * The tool handlers *)

Section Handlers.

Context {P : Platform}.

Lemma schema_required_table t :
  schema_required t =
    match t with
    | git_status | git_push | git_pull | git_log => ["repo_path"]
    | git_branch => ["repo_path"; "action"]
    | git_commit => ["repo_path"; "message"]
    | git_add => ["repo_path"; "files"]
    end.
Proof. destruct t; reflexivity. Qed.

Lemma absent_get_or args k default :
  absent args k = true -> get_or args k default = default.
Proof.
  unfold absent, get_or. destruct (dict_get k args); [discriminate | reflexivity].
Qed.

Lemma eq_str_true v s : eq_str v s = true -> v = JStr s.
Proof.
  destruct v; cbn; try discriminate. intros H. apply String.eqb_eq in H. now subst.
Qed.

Lemma extends_refl (s : state P) : extends s s [].
Proof. unfold extends. rewrite app_nil_r. auto. Qed.

Lemma extends_trans (s s1 s2 : state P) d1 d2 :
  extends s s1 d1 -> extends s1 s2 d2 -> extends s s2 (d1 ++ d2).
Proof.
  unfold extends. intros (H1 & H2 & H3) (H4 & H5 & H6).
  rewrite H4, H1, H5, H2, H6, H3, app_assoc. auto.
Qed.

(** A call that lacks a required argument is refused before anything is
    asked of the world. *)
Lemma missing_rejected t args (s : state P) :
  missing_required t args = true ->
  exists text,
    handler t (JObj args) s = (inr (JStr text), s) /\
    prefix "Error:" text = true.
Proof.
  unfold missing_required, required_args. intros Hm.
  destruct t; try destruct (branch_needs_name args) eqn:Hb;
    rewrite schema_required_table in Hm.
  all: open_handler.
  all: cbn [existsb app] in Hm; rewrite ?orb_false_r in Hm.
  all: repeat match type of Hm with
         | (_ || _) = true => apply orb_true_iff in Hm; destruct Hm as [Hm | Hm]
         end.
  all: try (rewrite (absent_get_or _ _ _ Hm); cbn; rewrite ?orb_true_r;
            eexists; split; reflexivity).
  (* branch_name, needed by the action *)
  unfold branch_needs_name in Hb.
  rewrite (absent_get_or _ _ _ Hm).
  destruct (truthy (get_or args "repo_path" JNull)); cbn.
  2: { destruct (truthy (get_or args "action" JNull)); cbn; eexists; split; reflexivity. }
  repeat match type of Hb with
         | (_ || _) = true => apply orb_true_iff in Hb; destruct Hb as [Hb | Hb]
         end.
  all: apply eq_str_true in Hb; rewrite Hb; cbn; eexists; split; reflexivity.
Qed.

Ltac invoke :=
  match goal with
  | |- context [_run_git_command ?c ?p ?s] =>
      let result := fresh "result" in
      let s' := fresh "s" in
      let r := fresh "r" in
      let delta := fresh "delta" in
      let Heq := fresh "Heq" in
      let Hext := fresh "Hext" in
      let Hinv := fresh "Hinv" in
      let Hruns := fresh "Hruns" in
      destruct (run_git_cases c p s)
        as (result & s' & r & delta & Heq & Hext & Hinv & Hruns);
      rewrite Heq; inversion Hinv; subst; cbn
  end.

Ltac crunch :=
  cbn;
  match goal with
  | |- context [if ?b then _ else _] => destruct b eqn:?; crunch
  | |- context [_run_git_command _ _ _] => invoke; crunch
  | |- context [join_items ?sep ?i ?l] => destruct (join_items sep i l) eqn:?; crunch
  | _ => idtac
  end.

Ltac settle :=
  do 3 eexists; split; [reflexivity|];
  split; [first [eassumption | apply extends_refl | eapply extends_trans; eassumption]|];
  let Hf := fresh "Hf" in
  intros Hf;
  try (rewrite existsb_app in Hf; apply orb_true_iff in Hf; destruct Hf as [Hf | Hf]);
  first [ congruence | discriminate
        | eexists; split; [reflexivity|]; left; reflexivity ].

(** A handler prints nothing; when its calls met a fault it still returns,
    with a text that reports the error. *)
Lemma handler_faults t args (s : state P) :
  exists r s' delta,
    handler t (JObj args) s = (r, s') /\
    extends s s' delta /\
    (existsb is_fault delta = true ->
     exists text, r = inr (JStr text) /\ fault_report t args delta text).
Proof.
  destruct t; open_handler.
  - crunch; settle.
  - crunch; settle.
  - crunch. all: try settle.
    all: do 3 eexists; split; [reflexivity|]; split; [eassumption|]; intros _.
    all: eexists; split; [reflexivity|]; right; repeat split; trivial.
    all: destruct Hruns as [-> | [o ->]]; reflexivity.
  - crunch; settle.
  - crunch; settle.
  - crunch; settle.
  - destruct (get_or args "files" (JArr [])) eqn:Hfiles; crunch; settle.
Qed.

Lemma schema_missing_rejected t k args (s : state P) :
  In k (schema_required t) ->
  absent args k = true ->
  handler t (JObj args) s = (inr (JStr (required_message t)), s).
Proof.
  rewrite schema_required_table. intros Hk Ha.
  destruct t; cbn in Hk; open_handler.
  all: repeat match type of Hk with
         | _ \/ _ => destruct Hk as [Hk | Hk]
         | False => contradiction
         end.
  all: subst k; rewrite (absent_get_or _ _ _ Ha); cbn; rewrite ?orb_true_r; reflexivity.
Qed.

Lemma branch_name_missing_rejected action args (s : state P) :
  In action ["create"; "delete"; "checkout"] ->
  truthy (get_or args "repo_path" JNull) = true ->
  get_or args "action" JNull = JStr action ->
  absent args "branch_name" = true ->
  handler git_branch (JObj args) s =
    (inr (JStr ("Error: branch_name is required for " ++ action ++ " action")), s).
Proof.
  intros Ha Hrp Hact Hb. open_handler.
  rewrite Hrp, Hact, (absent_get_or _ _ _ Hb).
  cbn in Ha. destruct Ha as [<- | [<- | [<- | []]]]; reflexivity.
Qed.

(** C3: a call that lacks a required argument asks nothing of the world (the
    state, and so the trace, is returned untouched) and answers with a text
    that begins with "Error:"; [git_branch] with action "create" and no
    [branch_name] answers exactly
    "Error: branch_name is required for create action". *)
Theorem missing_argument_short_circuits t args (s : state P) :
  (missing_required t args = true ->
   exists text,
     handler t (JObj args) s = (inr (JStr text), s) /\
     prefix "Error:" text = true) /\
  (truthy (get_or args "repo_path" JNull) = true ->
   get_or args "action" JNull = JStr "create" ->
   absent args "branch_name" = true ->
   _handle_git_branch (JObj args) s =
     (inr (JStr "Error: branch_name is required for create action"), s)).
Proof.
  split.
  - apply missing_rejected.
  - intros Hrp Hact Hb.
    apply (branch_name_missing_rejected "create"); cbn; auto.
Qed.

(** C4: when [git_commit] is called with [add_all] set and the staging step
    ([git add -A]) reports failure, the handler returns the staging error and
    stops in the state the staging step left: no commit command is run. *)
Theorem staging_failure_skips_commit args (s s1 : state P) add_result :
  truthy (get_or args "repo_path" JNull) = true ->
  truthy (get_or args "message" JNull) = true ->
  truthy (get_or args "add_all" (JBool false)) = true ->
  _run_git_command [JStr "git"; JStr "add"; JStr "-A"]
    (get_or args "repo_path" JNull) s = (inr add_result, s1) ->
  truthy (get_or add_result "success" JNull) = false ->
  _handle_git_commit (JObj args) s =
    (inr (JStr ("Error adding files: " ++ py_str (error_of add_result))), s1) /\
  exists delta,
    st_trace s1 = (st_trace s ++ delta)%list /\
    existsb is_commit_run delta = false.
Proof.
  intros Hrp Hmsg Hall Hrun Hfail.
  destruct (run_git_cases [JStr "git"; JStr "add"; JStr "-A"]
              (get_or args "repo_path" JNull) s)
    as (result & s' & r & delta & Heq & Hext & Hinv & Hruns).
  rewrite Hrun in Heq. injection Heq as <- <-.
  split.
  - open_handler. rewrite Hrp, Hmsg, Hall. cbn. rewrite Hrun.
    inversion Hinv; subst; cbn in Hfail |- *; try discriminate; reflexivity.
  - exists (EvExists (get_or args "repo_path" JNull) r :: delta).
    split; [apply Hext|].
    destruct Hruns as [-> | [o ->]]; reflexivity.
Qed.

End Handlers.

Section InvokerClaims.

Context {P : Platform}.

(** C5: when the working directory does not exist, the invoker returns
    [success = False] with the error "Directory does not exist: <path>" and
    the trace gains the existence check only, no run of the command; every
    tool's handler reaches this outcome, on a call that passes its required
    arguments with a non-empty [repo_path]. *)
Theorem missing_directory_is_reported (s : state P) w :
  (forall command cwd,
     os_path_exists (st_world s) cwd = (inr false, w) ->
     _run_git_command command cwd s =
       (inr [("success", JBool false);
             ("error", JStr ("Directory does not exist: " ++ py_str cwd))],
        State w (st_trace s ++ [EvExists cwd (inr false)])
              (st_stdout s) (st_stderr s))) /\
  (forall t path,
     truthy (JStr path) = true ->
     os_path_exists (st_world s) (JStr path) = (inr false, w) ->
     handler t (JObj (plain_call t path)) s =
       (inr (JStr ("Error: Directory does not exist: " ++ path)),
        State w (st_trace s ++ [EvExists (JStr path) (inr false)])
              (st_stdout s) (st_stderr s))).
Proof.
  split.
  - intros command cwd H. now apply run_git_missing_directory.
  - intros t path Ht H.
    destruct t; cbn [handler plain_call];
      unfold _handle_git_status, _handle_git_branch, _handle_git_commit,
        _handle_git_push, _handle_git_pull, _handle_git_log, _handle_git_add,
        create_commit, branch_summary, list_concat;
      unfold bind at 1 2 3 4; unfold py_get, ret; cbn [get_or dict_get String.eqb Ascii.eqb Bool.eqb];
      rewrite Ht; cbn [negb orb truthy eq_str String.eqb Ascii.eqb Bool.eqb app];
      unfold bind; rewrite (run_git_missing_directory _ _ _ _ H); reflexivity.
Qed.

(** C6: when the directory exists and the command runs to completion, the
    result carries [stdout], [stderr] and [returncode] whatever the exit
    code, and [success] is true exactly when the exit code is zero. *)
Theorem completed_run_success_iff_zero_exit command cwd (s : state P) w w' proc :
  os_path_exists (st_world s) cwd = (inr true, w) ->
  subprocess_run w command cwd = (inr proc, w') ->
  exists result s',
    _run_git_command command cwd s = (inr result, s') /\
    (dict_get "success" result = Some (JBool true) <-> returncode proc = 0%Z) /\
    (returncode proc <> 0%Z -> dict_get "success" result = Some (JBool false)) /\
    dict_get "stdout" result = Some (JStr (stdout proc)) /\
    dict_get "stderr" result = Some (JStr (stderr proc)) /\
    dict_get "returncode" result = Some (JInt (returncode proc)).
Proof.
  intros H1 H2. do 2 eexists.
  split; [apply (run_git_completed _ _ _ _ _ _ H1 H2)|]. cbn.
  destruct (Z.eqb_spec (returncode proc) 0) as [Hz | Hz].
  - repeat split; auto. intros Hn. contradiction.
  - repeat split; auto; try discriminate. intros Hn. contradiction.
Qed.

End InvokerClaims.

(** * The dispatch engine *)

Section Dispatch.

Context {P : Platform}.

Lemma send_response_emits result request_id (s : state P) :
  _send_response result request_id s =
    (inr tt, emit s (envelope "result" result request_id)).
Proof. destruct request_id; reflexivity. Qed.

Lemma send_error_emits code message request_id (s : state P) :
  _send_error code message request_id s =
    (inr tt,
     emit s (envelope "error"
               (JObj [("code", JInt code); ("message", JStr message)]) request_id)).
Proof. destruct request_id; reflexivity. Qed.

Lemma select_tool_name t : select_tool (JStr (tool_name t)) = Some t.
Proof. destruct t; reflexivity. Qed.

Lemma select_tool_unregistered name :
  ~ In name (map descriptor_name tools) -> select_tool name = None.
Proof.
  intros Hn. unfold select_tool.
  repeat match goal with
         | |- (if eq_str name ?lit then _ else _) = None =>
             let E := fresh "E" in
             destruct (eq_str name lit) eqn:E;
             [apply eq_str_true in E; subst name; exfalso; apply Hn; cbn; tauto|]
         end.
  reflexivity.
Qed.

(** Whatever the arguments are, a handler prints nothing. *)
Lemma handler_extends t (args : json) (s : state P) :
  exists r s' delta, handler t args s = (r, s') /\ extends s s' delta.
Proof.
  destruct args as [| b | n | f | x | l | d].
  7: { destruct (handler_faults t d s) as (r & s' & delta & H1 & H2 & _). eauto. }
  all: do 3 eexists; split; [destruct t; reflexivity | apply extends_refl].
Qed.

Lemma dict_get_remove_same k (d : dict) : dict_get k (dict_remove k d) = None.
Proof.
  induction d as [| [k' v] d IH]; cbn; [reflexivity|].
  destruct (String.eqb k' k) eqn:E; [exact IH|]. cbn. now rewrite E.
Qed.

Lemma dict_get_remove_other k k' (d : dict) :
  k' <> k -> dict_get k' (dict_remove k d) = dict_get k' d.
Proof.
  intros Hne. induction d as [| [k0 v] d IH]; cbn; [reflexivity|].
  destruct (String.eqb k0 k) eqn:E.
  - apply String.eqb_eq in E. subst k0.
    destruct (String.eqb_spec k k'); [congruence | exact IH].
  - cbn. now rewrite IH.
Qed.

Lemma get_or_remove_other k k' (d : dict) default :
  k' <> k -> get_or (dict_remove k d) k' default = get_or d k' default.
Proof. intros H. unfold get_or. now rewrite dict_get_remove_other. Qed.

Lemma get_or_remove_same k (d : dict) default :
  get_or (dict_remove k d) k default = default.
Proof. unfold get_or. now rewrite dict_get_remove_same. Qed.

Lemma tools_call_known t args params request_id (s : state P) :
  get_or params "name" JNull = JStr (tool_name t) ->
  get_or params "arguments" (JObj []) = JObj args ->
  handle_tools_call (JObj params) request_id s =
    match handler t (JObj args) s with
    | (inr result, s') => _send_response (text_content result) request_id s'
    | (inl e, s') => (inl e, s')
    end.
Proof.
  intros Hn Ha. unfold handle_tools_call, bind, py_get, ret.
  rewrite Hn, Ha, select_tool_name.
  destruct (handler t (JObj args) s) as [[e | result] s']; reflexivity.
Qed.

(** C2, as amended: when a required argument is missing, or a call into the
    world meets a fault (absent directory, nonzero exit, an exception on
    launch), [tools/call] answers with a result envelope, never an error
    envelope, whose text begins with "Error:" -- or with
    "Error adding files:" when it is the staging step of [git_commit] that
    failed, in which case no commit was run. *)
Theorem tool_faults_are_text_results t args params request_id (s : state P) :
  get_or params "name" JNull = JStr (tool_name t) ->
  get_or params "arguments" (JObj []) = JObj args ->
  exists r s' delta,
    handle_tools_call (JObj params) request_id s = (r, s') /\
    st_trace s' = (st_trace s ++ delta)%list /\
    (missing_required t args = true \/ existsb is_fault delta = true ->
     exists text,
       r = inr tt /\
       st_stdout s' =
         (st_stdout s ++ [envelope "result" (text_content (JStr text)) request_id])%list /\
       fault_report t args delta text).
Proof.
  intros Hn Ha. rewrite (tools_call_known t args params request_id s Hn Ha).
  destruct (handler_faults t args s) as (r & s1 & delta & Heq & Hext & Hfault).
  rewrite Heq.
  assert (Hreport :
            missing_required t args = true \/ existsb is_fault delta = true ->
            exists text, r = inr (JStr text) /\ fault_report t args delta text).
  { intros [Hm | Hf]; [| now apply Hfault].
    destruct (missing_rejected t args s Hm) as (text & Hrej & Hpre).
    rewrite Hrej in Heq. injection Heq as <- _.
    exists text. split; [reflexivity | now left]. }
  destruct Hext as (Htr & Hout & _).
  destruct r as [e | result].
  - exists (inl e), s1, delta. repeat split; auto.
    intros H. destruct (Hreport H) as (text & Hr & _). discriminate.
  - rewrite send_response_emits.
    do 3 eexists. split; [reflexivity|]. split; [exact Htr|].
    intros H. destruct (Hreport H) as (text & Hr & Hrep).
    injection Hr as ->. exists text. cbn. rewrite Hout. auto.
Qed.

(** C7: a [tools/call] request whose [params.name] is not the name of a
    registered tool is answered by exactly one error envelope, code -32601,
    message "Unknown tool: <name>"; nothing is asked of the world and no
    result envelope is printed. *)
Theorem unknown_tool_is_protocol_error request params (s : state P) :
  get_or request "method" JNull = JStr "tools/call" ->
  get_or request "params" (JObj []) = JObj params ->
  ~ In (get_or params "name" JNull) (map descriptor_name tools) ->
  handle_request (JObj request) s =
    (inr tt,
     emit s (envelope "error"
               (JObj [("code", JInt (-32601));
                      ("message",
                       JStr ("Unknown tool: " ++ py_str (get_or params "name" JNull)))])
               (get_or request "id" JNull))).
Proof.
  intros Hm Hp Hn.
  unfold handle_request, bind, py_get, ret. rewrite Hm, Hp. cbn.
  unfold handle_tools_call, bind, py_get, ret.
  rewrite (select_tool_unregistered _ Hn).
  apply send_error_emits.
Qed.

(** What a request with no usable id prints: at most one envelope, and
    none with an [id] member. *)
Lemma handle_request_null_id request (s : state P) :
  get_or request "id" JNull = JNull ->
  exists r s' emitted,
    handle_request (JObj request) s = (r, s') /\
    st_stdout s' = (st_stdout s ++ emitted)%list /\
    Forall lacks_id emitted.
Proof.
  intros Hid. unfold handle_request, bind, py_get, ret. rewrite Hid.
  set (method := get_or request "method" JNull).
  set (params := get_or request "params" (JObj [])).
  assert (Hsilent : forall r : exn + unit,
             exists r' s' emitted,
               (r, s) = (r', s') /\
               st_stdout s' = (st_stdout s ++ emitted)%list /\
               Forall lacks_id emitted).
  { intros r. exists r, s, []. rewrite app_nil_r. auto. }
  destruct (eq_str method "initialize").
  { unfold handle_initialize. rewrite send_response_emits.
    do 3 eexists. split; [reflexivity|]. split; [reflexivity|].
    repeat constructor. }
  destruct (eq_str method "initialized"); [apply Hsilent|].
  destruct (eq_str method "tools/list").
  { unfold handle_tools_list. rewrite send_response_emits.
    do 3 eexists. split; [reflexivity|]. split; [reflexivity|].
    repeat constructor. }
  destruct (eq_str method "tools/call"); [| apply Hsilent].
  unfold handle_tools_call, bind, py_get, ret, raise.
  destruct params; try apply Hsilent.
  destruct (select_tool (get_or d "name" JNull)) as [t |].
  - destruct (handler_extends t (get_or d "arguments" (JObj [])) s)
      as (r & s1 & delta & Heq & _ & Hout & _).
    rewrite Heq. destruct r as [e | result].
    + exists (inl e), s1, []. rewrite app_nil_r. auto.
    + rewrite send_response_emits.
      do 3 eexists. split; [reflexivity|]. cbn. rewrite Hout.
      split; [reflexivity|]. repeat constructor.
  - rewrite send_error_emits.
    do 3 eexists. split; [reflexivity|]. split; [reflexivity|].
    repeat constructor.
Qed.

(** C9: a request whose [id] is JSON null is handled exactly as the same
    request with the [id] member removed; no envelope it prints has an [id]
    member; and when its method is none of the four the loop knows, it
    prints nothing. *)
Theorem null_id_is_no_id request (s : state P) :
  dict_get "id" request = Some JNull ->
  handle_request (JObj request) s =
    handle_request (JObj (dict_remove "id" request)) s /\
  (exists r s' emitted,
     handle_request (JObj request) s = (r, s') /\
     st_stdout s' = (st_stdout s ++ emitted)%list /\
     Forall lacks_id emitted) /\
  (~ In (get_or request "method" JNull)
        [JStr "initialize"; JStr "initialized"; JStr "tools/list"; JStr "tools/call"] ->
   handle_request (JObj request) s = (inr tt, s)).
Proof.
  intros Hid.
  assert (Hnull : get_or request "id" JNull = JNull).
  { unfold get_or. now rewrite Hid. }
  split; [| split].
  - unfold handle_request, bind, py_get, ret.
    rewrite !get_or_remove_other by discriminate.
    rewrite Hnull, get_or_remove_same. reflexivity.
  - now apply handle_request_null_id.
  - intros Hm. unfold handle_request, bind, py_get, ret. rewrite Hnull.
    repeat match goal with
           | |- (if eq_str ?m ?lit then _ else _) _ = _ =>
               let E := fresh "E" in
               destruct (eq_str m lit) eqn:E;
               [apply eq_str_true in E; exfalso; apply Hm; rewrite E; cbn; tauto|]
           end.
    reflexivity.
Qed.

(** C1, as amended: a message with no [id] whose method is not
    [initialize], [tools/list] or [tools/call] -- [initialized], an unknown
    method, no method at all -- prints nothing and asks nothing of the
    world: the state is returned untouched. *)
Theorem notification_without_served_method_is_silent request (s : state P) :
  dict_get "id" request = None ->
  ~ In (get_or request "method" JNull)
       [JStr "initialize"; JStr "tools/list"; JStr "tools/call"] ->
  handle_request (JObj request) s = (inr tt, s).
Proof.
  intros Hid Hm.
  assert (Hnull : get_or request "id" JNull = JNull).
  { unfold get_or. now rewrite Hid. }
  unfold handle_request, bind, py_get, ret. rewrite Hnull.
  destruct (eq_str (get_or request "method" JNull) "initialize") eqn:E1.
  { apply eq_str_true in E1. exfalso. apply Hm. rewrite E1. cbn. tauto. }
  destruct (eq_str (get_or request "method" JNull) "initialized"); [reflexivity|].
  destruct (eq_str (get_or request "method" JNull) "tools/list") eqn:E2.
  { apply eq_str_true in E2. exfalso. apply Hm. rewrite E2. cbn. tauto. }
  destruct (eq_str (get_or request "method" JNull) "tools/call") eqn:E3.
  { apply eq_str_true in E3. exfalso. apply Hm. rewrite E3. cbn. tauto. }
  reflexivity.
Qed.

End Dispatch.

(** * The transport loop

    [KeyboardInterrupt], which ends the loop, is a signal from outside and
    is not part of the model. *)

Section Transport.

Context {P : Platform}.

(** A line that parses is handed to the dispatch engine; what the engine
    raises is logged on stderr and the loop goes on. *)
Lemma serve_line_parsed line request (s : state P) :
  json_loads line = inr request ->
  serve_line line s =
    match handle_request request s with
    | (inr _, s') => s'
    | (inl e, s') => snd (print_stderr ("Unexpected error: " ++ exn_str e) s')
    end.
Proof.
  intros H. unfold serve_line, try_except. rewrite H.
  destruct (handle_request request s) as [[e | []] s']; reflexivity.
Qed.

(** A line that does not parse is answered by a parse error without id. *)
Lemma serve_line_parse_error line e (s : state P) :
  json_loads line = inl e ->
  exn_class e = "JSONDecodeError" ->
  serve_line line s =
    emit s (envelope "error"
              (JObj [("code", JInt (-32700));
                     ("message", JStr ("Parse error: " ++ exn_str e))])
              JNull).
Proof.
  intros H Hc. unfold serve_line, try_except. rewrite H, Hc. reflexivity.
Qed.

(** The loop ends at the end of the stream and reads nothing after it. *)
Lemma run_stops_at_eof lines rest (s : state P) :
  run (lines ++ "" :: rest) s = run lines s.
Proof.
  revert s. induction lines as [| line lines IH]; intros s; cbn; [reflexivity|].
  destruct (String.eqb line ""); [reflexivity | apply IH].
Qed.

End Transport.

(** * Required arguments: registry and handlers *)

Section Required.

Context {P : Platform}.

Lemma get_or_present k v (d : dict) default :
  dict_get k d = Some v -> get_or d k default = v.
Proof. intros H. unfold get_or. now rewrite H. Qed.

Lemma trace_grows (s s' : state P) e delta : extends s s' (e :: delta) -> s' <> s.
Proof.
  intros (H & _) ->. apply (f_equal (@length _)) in H.
  rewrite length_app in H. cbn in H. lia.
Qed.

Lemma plain_call_absent t path k :
  ~ In k (schema_required t) -> absent (plain_call t path) k = true.
Proof.
  rewrite schema_required_table. intros Hk. unfold absent.
  destruct t; cbn [plain_call dict_get].
  all: repeat match goal with
         | |- context [String.eqb ?lit ?x] =>
             destruct (String.eqb_spec lit x);
             [exfalso; apply Hk; subst x; cbn; tauto|]
         end.
  all: reflexivity.
Qed.

(** A call that passes its required arguments reaches the invoker. *)
Lemma plain_call_not_rejected t (s : state P) : ~ rejects t (plain_call t "/repo").
Proof.
  intros H. specialize (H s). revert H.
  destruct t; open_handler; cbn.
  all: match goal with
       | |- context [_run_git_command ?c ?p ?s0] =>
           destruct (run_git_cases c p s0)
             as (result & s' & r & delta & Heq & Hext & Hinv & _);
           rewrite Heq; apply trace_grows in Hext
       end.
  all: inversion Hinv; subst; cbn.
  all: repeat match goal with
         | |- context [if ?b then _ else _] => destruct b
         end.
  all: intros Heq'; injection Heq' as _ Hs; contradiction.
Qed.

Lemma required_iff_rejects t k (s : state P) :
  In k (schema_required t) <->
  (forall args, absent args k = true -> rejects t args).
Proof.
  split.
  - intros Hk args Ha s0. now apply schema_missing_rejected with (k := k).
  - intros H.
    destruct (in_dec string_dec k (schema_required t)) as [Hin | Hout]; [exact Hin|].
    exfalso. apply (plain_call_not_rejected t s).
    apply H. now apply plain_call_absent.
Qed.

(** C8: [tools/list] answers with the registry in one result envelope; the
    registry has exactly seven descriptors, named git_status, git_branch,
    git_commit, git_push, git_pull, git_log, git_add in this order, all
    names distinct; and the [required] list of each descriptor names exactly
    the arguments whose absence makes the handler of that tool refuse the
    call, whatever the other arguments are. *)
Theorem tools_list_matches_handlers request_id (s : state P) :
  handle_tools_list request_id s =
    (inr tt, emit s (envelope "result" (JObj [("tools", JArr tools)]) request_id)) /\
  length tools = 7 /\
  map descriptor_name tools =
    [JStr "git_status"; JStr "git_branch"; JStr "git_commit"; JStr "git_push";
     JStr "git_pull"; JStr "git_log"; JStr "git_add"] /\
  NoDup (map descriptor_name tools) /\
  Forall2
    (fun d t =>
       descriptor_name d = JStr (tool_name t) /\
       forall k,
         In k (descriptor_required d) <->
         (forall args, absent args k = true -> rejects t args))
    tools all_tools.
Proof.
  split; [apply send_response_emits|].
  split; [reflexivity|].
  split; [reflexivity|].
  split.
  - cbn. repeat constructor; cbn; intuition discriminate.
  - unfold tools, all_tools.
    repeat (constructor;
            [split; [reflexivity | intros k];
             match goal with
             | |- _ <-> (forall args, _ -> rejects ?t args) =>
                 exact (required_iff_rejects t k s)
             end |]).
    constructor.
Qed.

Ltac forget_removed :=
  repeat match goal with
         | |- context [get_or (dict_remove ?k ?d) ?k' ?default] =>
             first [ rewrite (get_or_remove_same k d default)
                   | rewrite (get_or_remove_other k k' d default) by discriminate ]
         end.

(** Removing a falsy argument from a call changes nothing. *)
Lemma falsy_same_as_removed t k v args (s : state P) :
  In k ["repo_path"; "message"; "action"; "branch_name"; "files"] ->
  dict_get k args = Some v ->
  truthy v = false ->
  handler t (JObj args) s = handler t (JObj (dict_remove k args)) s.
Proof.
  intros Hk Hget Hv. cbn in Hk.
  repeat match type of Hk with
         | _ \/ _ => destruct Hk as [Hk | Hk]
         | False => contradiction
         end.
  all: subst k; destruct t; open_handler; forget_removed.
  all: try reflexivity.
  all: rewrite (get_or_present _ _ _ _ Hget), Hv; cbn; rewrite ?orb_true_r; reflexivity.
Qed.

(** C10: a required argument that is present but falsy (the empty string,
    the empty list, and any other falsy value) is handled exactly as if it
    were absent: the handler answers with the text of its required-argument
    check, or of the [branch_name] check of the action, and asks nothing of
    the world. *)
Theorem falsy_argument_is_absent t k v args (s : state P) :
  In k ["repo_path"; "message"; "action"; "branch_name"; "files"] ->
  dict_get k args = Some v ->
  truthy v = false ->
  handler t (JObj args) s = handler t (JObj (dict_remove k args)) s /\
  (In k (schema_required t) ->
   handler t (JObj args) s = (inr (JStr (required_message t)), s)) /\
  (forall action,
     t = git_branch -> k = "branch_name" ->
     In action ["create"; "delete"; "checkout"] ->
     truthy (get_or args "repo_path" JNull) = true ->
     get_or args "action" JNull = JStr action ->
     handler t (JObj args) s =
       (inr (JStr ("Error: branch_name is required for " ++ action ++ " action")), s)).
Proof.
  intros Hk Hget Hv.
  pose proof (falsy_same_as_removed t k v args s Hk Hget Hv) as Hsame.
  assert (Habs : absent (dict_remove k args) k = true).
  { unfold absent. now rewrite dict_get_remove_same. }
  split; [exact Hsame | split].
  - intros Hreq. rewrite Hsame. now apply schema_missing_rejected with (k := k).
  - intros action -> -> Ha Hrp Hact. rewrite Hsame.
    apply branch_name_missing_rejected; auto.
    + now rewrite get_or_remove_other by discriminate.
    + now rewrite get_or_remove_other by discriminate.
Qed.

End Required.

(** * Further properties of the invoker *)

Section InvokerPaths.

Context {P : Platform}.

Lemma run_git_invoked command cwd (s : state P) :
  exists result s' delta,
    _run_git_command command cwd s = (inr result, s') /\
    extends s s' delta /\
    invoked command cwd delta result.
Proof.
  unfold _run_git_command, try_except, bind, path_exists, run_process, extends.
  destruct (os_path_exists (st_world s) cwd) as [[e | [|]] w] eqn:H1; cbn.
  - do 3 eexists. split; [reflexivity|]. cbn. repeat split. constructor.
  - destruct (subprocess_run w command cwd) as [[e | proc] w'] eqn:H2; cbn.
    + do 3 eexists. split; [reflexivity|]. cbn. rewrite <- app_assoc.
      repeat split. constructor.
    + do 3 eexists. split; [reflexivity|]. cbn. rewrite <- app_assoc.
      repeat split. constructor.
  - do 3 eexists. split; [reflexivity|]. cbn. repeat split. constructor.
Qed.

(** X1: an exception raised by the existence check or by the launch of the
    command does not leave the invoker: it becomes a result with
    [success = False] and [error = str(e)], without [stdout], [stderr] or
    [returncode]. *)
Theorem invoker_reports_exceptions command cwd (s : state P) :
  (forall e w,
     os_path_exists (st_world s) cwd = (inl e, w) ->
     _run_git_command command cwd s =
       (inr [("success", JBool false); ("error", JStr (exn_str e))],
        State w (st_trace s ++ [EvExists cwd (inl e)]) (st_stdout s) (st_stderr s))) /\
  (forall e w w',
     os_path_exists (st_world s) cwd = (inr true, w) ->
     subprocess_run w command cwd = (inl e, w') ->
     _run_git_command command cwd s =
       (inr [("success", JBool false); ("error", JStr (exn_str e))],
        State w' (st_trace s ++ [EvExists cwd (inr true); EvRun command cwd (inl e)])
              (st_stdout s) (st_stderr s))).
Proof.
  split.
  - intros e w H. unfold _run_git_command, try_except, bind, path_exists.
    rewrite H. reflexivity.
  - intros e w w' H1 H2.
    unfold _run_git_command, try_except, bind, path_exists, run_process.
    rewrite H1. cbn. rewrite H2. cbn. rewrite <- app_assoc. reflexivity.
Qed.

(** X2: the invoker always returns a result, with a boolean [success] that
    is true exactly when no call met a fault; when [success] is false the
    text the handlers report is the [error] member if there is one and the
    captured [stderr] otherwise, so their "Unknown error" default is never
    what is reported. *)
Theorem invoker_result_shape command cwd (s : state P) :
  exists result s' delta,
    _run_git_command command cwd s = (inr result, s') /\
    st_trace s' = (st_trace s ++ delta)%list /\
    dict_get "success" result = Some (JBool (negb (existsb is_fault delta))) /\
    (existsb is_fault delta = true ->
     exists msg,
       error_of result = JStr msg /\
       (dict_get "error" result = Some (JStr msg) \/
        dict_get "error" result = None /\
        dict_get "stderr" result = Some (JStr msg))).
Proof.
  destruct (run_git_invoked command cwd s) as (result & s' & delta & Heq & Hext & Hinv).
  exists result, s', delta. split; [exact Heq|]. split; [apply Hext|].
  destruct Hinv; cbn.
  - split; [reflexivity|]. intros _. eexists. split; [reflexivity|]. now left.
  - split; [reflexivity|]. intros _. eexists. split; [reflexivity|]. now left.
  - split; [reflexivity|]. intros _. eexists. split; [reflexivity|]. now left.
  - rewrite orb_false_r, negb_involutive. split; [reflexivity|].
    intros _. eexists. split; [reflexivity|]. right. split; reflexivity.
Qed.

End InvokerPaths.

(** * Further properties of the handlers *)

Section HandlerPaths.

Context {P : Platform}.

Ltac invoke_exact :=
  match goal with
  | |- context [_run_git_command ?c ?p ?s] =>
      let result := fresh "result" in
      let s' := fresh "s" in
      let delta := fresh "delta" in
      let Heq := fresh "Heq" in
      let Hext := fresh "Hext" in
      let Hinv := fresh "Hinv" in
      destruct (run_git_invoked c p s) as (result & s' & delta & Heq & Hext & Hinv);
      rewrite Heq; destruct Hinv; cbn
  end.

Ltac walk :=
  cbn;
  match goal with
  | |- context [if ?b then _ else _] => destruct b eqn:?; walk
  | |- context [_run_git_command _ _ _] => invoke_exact; walk
  | |- context [join_items ?sep ?i ?l] => destruct (join_items sep i l) eqn:?; walk
  | _ => idtac
  end.

Ltac traced :=
  eapply proj1;
  first [ eassumption | apply extends_refl | eapply extends_trans; eassumption ].

(** X3: whatever the arguments, every call a handler makes into the world
    concerns the directory [repo_path], every command it runs is a [git]
    command, and it runs at most one command -- two for [git_commit] with
    [add_all]. *)
Theorem handler_trace_shape t args (s : state P) :
  exists r s' delta,
    handler t (JObj args) s = (r, s') /\
    st_trace s' = (st_trace s ++ delta)%list /\
    Forall (at_repo (get_or args "repo_path" JNull)) delta /\
    length (filter is_run delta) <=
      match t with
      | git_commit => if truthy (get_or args "add_all" (JBool false)) then 2 else 1
      | _ => 1
      end.
Proof.
  destruct t; open_handler.
  7: destruct (get_or args "files" (JArr [])) eqn:Hfiles.
  all: walk.
  all: do 3 eexists; split; [reflexivity|]; split; [traced|].
  all: split; [repeat constructor | cbn; lia].
Qed.


Lemma join_items_strings sep items i :
  forallb is_str items = true -> exists text, join_items sep i items = inr text.
Proof.
  revert i. induction items as [| v rest IH]; intros i H; cbn; [eauto|].
  cbn in H. apply andb_true_iff in H. destruct H as [Hv Hrest].
  destruct v; try discriminate.
  destruct rest as [| v' rest']; [eauto|].
  destruct (IH (S i) Hrest) as (text & ->). eauto.
Qed.

(** A handler whose arguments are a mapping returns a text; [git_add] needs
    [files] to be a list of strings, or falsy. *)
Lemma handler_returns_text t args (s : state P) :
  (t = git_add -> files_well_typed args = true) ->
  exists text s', handler t (JObj args) s = (inr (JStr text), s').
Proof.
  intros Hfiles. destruct t; open_handler.
  1-6: walk; do 2 eexists; reflexivity.
  specialize (Hfiles eq_refl). unfold files_well_typed in Hfiles.
  destruct (get_or args "files" (JArr [])) as [| b | n | f | x | l | d] eqn:Hget.
  6: { destruct l as [| v l'].
       { cbn. rewrite orb_true_r. do 2 eexists; reflexivity. }
       assert (Ht : truthy (JArr (v :: l')) = true) by reflexivity.
       remember (v :: l') as items eqn:Hitems.
       destruct (join_items_strings ", " items 0 Hfiles) as (text & Hjoin).
       rewrite Ht.
       destruct (truthy (get_or args "repo_path" JNull)); cbn;
         [| do 2 eexists; reflexivity].
       invoke_exact; try (do 2 eexists; reflexivity).
       destruct (returncode proc =? 0)%Z; cbn; [| do 2 eexists; reflexivity].
       rewrite Hjoin. do 2 eexists; reflexivity. }
  all: apply negb_true_iff in Hfiles; rewrite Hfiles, orb_true_r; cbn.
  all: do 2 eexists; reflexivity.
Qed.

(** X4: a [tools/call] that names a registered tool and passes a mapping of
    arguments is answered by exactly one result envelope, with the id of the
    request and the handler's text as its content -- for [git_add], provided
    [files] is a list of strings or falsy. *)
Theorem well_typed_call_is_answered t args params request_id (s : state P) :
  get_or params "name" JNull = JStr (tool_name t) ->
  get_or params "arguments" (JObj []) = JObj args ->
  (t = git_add -> files_well_typed args = true) ->
  exists text s1,
    handler t (JObj args) s = (inr (JStr text), s1) /\
    st_stdout s1 = st_stdout s /\
    handle_tools_call (JObj params) request_id s =
      (inr tt, emit s1 (envelope "result" (text_content (JStr text)) request_id)).
Proof.
  intros Hn Ha Hfiles.
  destruct (handler_returns_text t args s Hfiles) as (text & s1 & Hrun).
  exists text, s1. split; [exact Hrun|]. split.
  - destruct (handler_extends t (JObj args) s) as (r & s' & delta & Heq & _ & Hout & _).
    rewrite Hrun in Heq. injection Heq as _ <-. exact Hout.
  - rewrite (tools_call_known t args params request_id s Hn Ha), Hrun.
    apply send_response_emits.
Qed.

(** X5: [git_add] with a [files] argument that is truthy but not a list (a
    string, a number, a mapping) raises a [TypeError] before anything is
    asked of the world, and [tools/call] prints no answer at all. *)
Theorem git_add_files_not_a_list args params request_id (s : state P) :
  get_or params "name" JNull = JStr "git_add" ->
  get_or params "arguments" (JObj []) = JObj args ->
  truthy (get_or args "repo_path" JNull) = true ->
  truthy (get_or args "files" (JArr [])) = true ->
  is_list (get_or args "files" (JArr [])) = false ->
  exists e,
    exn_class e = "TypeError" /\
    handle_tools_call (JObj params) request_id s = (inl e, s).
Proof.
  intros Hn Ha Hrp Hfiles Hlist.
  rewrite (tools_call_known git_add args params request_id s Hn Ha).
  open_handler. rewrite Hrp, Hfiles. cbn.
  destruct (get_or args "files" (JArr [])); try discriminate;
    eexists; (split; [| reflexivity]); reflexivity.
Qed.

(** X6: [git_commit] with [add_all]: when no call meets a fault, the handler
    has staged with [git add -A] and then committed with
    [git commit -m <message>], in this order and in the same directory, and
    returns the output of the commit. *)
Theorem commit_follows_staging args (s : state P) :
  truthy (get_or args "repo_path" JNull) = true ->
  truthy (get_or args "message" JNull) = true ->
  truthy (get_or args "add_all" (JBool false)) = true ->
  exists r s' delta,
    _handle_git_commit (JObj args) s = (r, s') /\
    st_trace s' = (st_trace s ++ delta)%list /\
    (existsb is_fault delta = false ->
     exists staged committed,
       delta =
         [EvExists (get_or args "repo_path" JNull) (inr true);
          EvRun [JStr "git"; JStr "add"; JStr "-A"]
            (get_or args "repo_path" JNull) (inr staged);
          EvExists (get_or args "repo_path" JNull) (inr true);
          EvRun [JStr "git"; JStr "commit"; JStr "-m"; get_or args "message" JNull]
            (get_or args "repo_path" JNull) (inr committed)] /\
       r = inr (JStr ("Commit created successfully:" ++ nl ++ stdout committed))).
Proof.
  intros Hrp Hmsg Hall. open_handler. rewrite Hrp, Hmsg, Hall.
  walk.
  all: do 3 eexists; split; [reflexivity|]; split; [traced|].
  all: cbn; intros Hf.
  all: try discriminate.
  all: repeat match goal with
         | E : _ = true |- _ =>
             tryif constr_eq E Hf then fail else (rewrite E in Hf; clear E)
         | E : _ = false |- _ =>
             tryif constr_eq E Hf then fail else (rewrite E in Hf; clear E)
         end.
  all: try discriminate.
  do 2 eexists. split; reflexivity.
Qed.

(** X7: [git_branch] with an action that is none of list, create, delete,
    checkout answers "Error: Unknown action: <action>" and asks nothing of
    the world, whatever [branch_name] is. *)
Theorem unknown_branch_action args (s : state P) :
  truthy (get_or args "repo_path" JNull) = true ->
  truthy (get_or args "action" JNull) = true ->
  ~ In (get_or args "action" JNull)
       [JStr "list"; JStr "create"; JStr "delete"; JStr "checkout"] ->
  _handle_git_branch (JObj args) s =
    (inr (JStr ("Error: Unknown action: " ++ py_str (get_or args "action" JNull))), s).
Proof.
  intros Hrp Hact Hn. open_handler. rewrite Hrp, Hact. cbn.
  repeat match goal with
         | |- (if eq_str ?a ?lit then _ else _) _ = _ =>
             let E := fresh "E" in
             destruct (eq_str a lit) eqn:E;
             [apply eq_str_true in E; exfalso; apply Hn; rewrite E; cbn; tauto|]
         end.
  reflexivity.
Qed.

(** X8: [git_push] runs [git push], then [--force] when [force] is truthy,
    then [origin <branch>] when [branch] is truthy; when the command exits
    with code 0 the text is its stdout, or else its stderr, or else
    "Push completed successfully". *)
Theorem push_summary args (s : state P) w w' proc :
  truthy (get_or args "repo_path" JNull) = true ->
  os_path_exists (st_world s) (get_or args "repo_path" JNull) = (inr true, w) ->
  subprocess_run w (push_command args) (get_or args "repo_path" JNull) = (inr proc, w') ->
  returncode proc = 0%Z ->
  _handle_git_push (JObj args) s =
    (inr (JStr (first_non_empty (stdout proc) (stderr proc)
                  "Push completed successfully")),
     State w'
       (st_trace s ++
        [EvExists (get_or args "repo_path" JNull) (inr true);
         EvRun (push_command args) (get_or args "repo_path" JNull) (inr proc)])
       (st_stdout s) (st_stderr s)).
Proof.
  intros Hrp H1 H2 Hrc. open_handler. rewrite Hrp. cbn.
  unfold push_command in *.
  destruct (truthy (get_or args "force" (JBool false)));
    destruct (truthy (get_or args "branch" JNull)); cbn in *.
  all: rewrite (run_git_completed _ _ _ _ _ _ H1 H2); cbn; rewrite Hrc; cbn.
  all: unfold first_non_empty.
  all: destruct (String.eqb (stdout proc) ""); cbn; [| reflexivity].
  all: destruct (String.eqb (stderr proc) ""); reflexivity.
Qed.

(** X9: a checkout that exits with code 0 is summarised by what git wrote on
    stderr; when stderr is empty, by stdout; when both are empty, by
    "Successfully performed checkout operation". *)
Theorem checkout_summary args (s : state P) w w' proc :
  truthy (get_or args "repo_path" JNull) = true ->
  get_or args "action" JNull = JStr "checkout" ->
  truthy (get_or args "branch_name" JNull) = true ->
  os_path_exists (st_world s) (get_or args "repo_path" JNull) = (inr true, w) ->
  subprocess_run w [JStr "git"; JStr "checkout"; get_or args "branch_name" JNull]
    (get_or args "repo_path" JNull) = (inr proc, w') ->
  returncode proc = 0%Z ->
  _handle_git_branch (JObj args) s =
    (inr (JStr (first_non_empty (stderr proc) (stdout proc)
                  "Successfully performed checkout operation")),
     State w'
       (st_trace s ++
        [EvExists (get_or args "repo_path" JNull) (inr true);
         EvRun [JStr "git"; JStr "checkout"; get_or args "branch_name" JNull]
           (get_or args "repo_path" JNull) (inr proc)])
       (st_stdout s) (st_stderr s)).
Proof.
  intros Hrp Hact Hname H1 H2 Hrc. open_handler.
  rewrite Hrp, Hact, Hname. cbn.
  rewrite (run_git_completed _ _ _ _ _ _ H1 H2); cbn; rewrite Hrc; cbn.
  unfold first_non_empty.
  destruct (String.eqb (stderr proc) ""); destruct (String.eqb (stdout proc) "");
    reflexivity.
Qed.

(** X10: for [git_status], [git_commit], [git_pull], [git_log] and
    [git_add], a text that begins with "Error" is returned only when the
    call was refused before anything was asked of the world, or when a call
    into the world met a fault. *)
Theorem error_text_means_failure t args (s : state P) :
  t <> git_branch ->
  t <> git_push ->
  exists r s' delta,
    handler t (JObj args) s = (r, s') /\
    st_trace s' = (st_trace s ++ delta)%list /\
    (forall text,
       r = inr (JStr text) ->
       prefix "Error" text = true ->
       delta = [] \/ existsb is_fault delta = true).
Proof.
  intros Hb Hp. destruct t; try contradiction; open_handler.
  5: destruct (get_or args "files" (JArr [])) eqn:Hfiles.
  all: walk.
  all: do 3 eexists; split; [reflexivity|]; split; [traced|].
  all: intros text Hr Hpre.
  all: try (left; reflexivity).
  all: right; cbn.
  all: repeat match goal with
         | E : _ = true |- _ => rewrite E; clear E
         | E : _ = false |- _ => rewrite E; clear E
         end.
  all: try reflexivity.
  all: try discriminate.
  all: injection Hr as <-; discriminate Hpre.
Qed.

End HandlerPaths.

(** * Registry and handlers, further *)

Section RegistryPaths.

Context {P : Platform}.

Lemma get_or_cons_same k v (d : dict) default : get_or ((k, v) :: d) k default = v.
Proof. unfold get_or. cbn. now rewrite String.eqb_refl. Qed.

Lemma get_or_cons_other k k' v (d : dict) default :
  k <> k' -> get_or ((k, v) :: d) k' default = get_or d k' default.
Proof.
  intros H. unfold get_or. cbn.
  destruct (String.eqb_spec k k'); [contradiction | reflexivity].
Qed.

Ltac forget_added :=
  repeat match goal with
         | |- context [get_or ((?k, ?v) :: ?d) ?k' ?default] =>
             first [ rewrite (get_or_cons_same k v d default)
                   | rewrite (get_or_cons_other k k' v d default) by discriminate ]
         end.

(** X18: the defaults the registry declares are the defaults the handlers
    use: a call that leaves out [add_all], [force] or [limit] is handled
    exactly as the call that passes the declared default. *)
Theorem declared_defaults_are_used t k d args (s : state P) :
  In (k, d) (schema_defaults t) ->
  absent args k = true ->
  handler t (JObj args) s = handler t (JObj ((k, d) :: args)) s.
Proof.
  intros Hin Ha.
  destruct t; vm_compute in Hin; try contradiction.
  all: destruct Hin as [Hin | []]; injection Hin as <- <-.
  all: open_handler; forget_added; rewrite (absent_get_or _ _ _ Ha); reflexivity.
Qed.

(** X19: the values the registry lists for [action] are exactly the actions
    [_handle_git_branch] knows: any other truthy action is refused with
    "Error: Unknown action: <action>", and none of the listed ones is. *)
Theorem action_enum_matches_handler action (s : state P) :
  truthy action = true ->
  (In action action_enum <-> ~ unknown_action (P := P) action).
Proof.
  intros Ht. split.
  - intros Hin Hunknown.
    assert (Hargs : forall a, action = JStr a ->
              _handle_git_branch (JObj [("repo_path", JStr "/repo"); ("action", JStr a)]) s =
                (inr (JStr ("Error: Unknown action: " ++ a)), s)).
    { intros a ->. apply (Hunknown [("repo_path", JStr "/repo"); ("action", JStr a)] s);
        reflexivity. }
    vm_compute in Hin.
    destruct Hin as [<- | [<- | [<- | [<- | []]]]];
      specialize (Hargs _ eq_refl); revert Hargs; open_handler; cbn;
      try discriminate.
    destruct (run_git_invoked [JStr "git"; JStr "branch"; JStr "-a"] (JStr "/repo") s)
      as (result & s' & delta & Heq & Hext & Hinv).
    rewrite Heq.
    assert (Hs : s' <> s).
    { destruct Hinv; eapply trace_grows; exact Hext. }
    destruct Hinv; cbn;
      repeat match goal with
             | |- context [if ?b then _ else _] => destruct b
             end;
      intros Heq'; injection Heq' as _ Hs'; contradiction.
  - intros Hknown.
    destruct (eq_str action "list") eqn:E1;
      [apply eq_str_true in E1; subst; vm_compute; tauto|].
    destruct (eq_str action "create") eqn:E2;
      [apply eq_str_true in E2; subst; vm_compute; tauto|].
    destruct (eq_str action "delete") eqn:E3;
      [apply eq_str_true in E3; subst; vm_compute; tauto|].
    destruct (eq_str action "checkout") eqn:E4;
      [apply eq_str_true in E4; subst; vm_compute; tauto|].
    exfalso. apply Hknown. intros args s0 Hrp Hact.
    open_handler. rewrite Hrp, Hact, Ht, E1, E2, E3, E4. reflexivity.
Qed.

Lemma join_items_concat sep names i :
  join_items sep i (map JStr names) = inr (String.concat sep names).
Proof.
  revert i. induction names as [| name rest IH]; intros i; [reflexivity|].
  cbn [map join_items String.concat].
  destruct rest as [| name' rest']; [reflexivity|].
  cbn [map] in *. now rewrite IH.
Qed.

(** X20: [git_add] with a non-empty list of file names runs [git add]
    followed by these names, in their order; when it exits with code 0 the
    text is "Files staged successfully: " and the names joined by ", ". *)
Theorem git_add_summary args names (s : state P) w w' proc :
  truthy (get_or args "repo_path" JNull) = true ->
  get_or args "files" (JArr []) = JArr (map JStr names) ->
  names <> [] ->
  os_path_exists (st_world s) (get_or args "repo_path" JNull) = (inr true, w) ->
  subprocess_run w (JStr "git" :: JStr "add" :: map JStr names)
    (get_or args "repo_path" JNull) = (inr proc, w') ->
  returncode proc = 0%Z ->
  _handle_git_add (JObj args) s =
    (inr (JStr ("Files staged successfully: " ++ String.concat ", " names)),
     State w'
       (st_trace s ++
        [EvExists (get_or args "repo_path" JNull) (inr true);
         EvRun (JStr "git" :: JStr "add" :: map JStr names)
           (get_or args "repo_path" JNull) (inr proc)])
       (st_stdout s) (st_stderr s)).
Proof.
  intros Hrp Hfiles Hne H1 H2 Hrc. open_handler. rewrite Hrp, Hfiles.
  assert (Ht : truthy (JArr (map JStr names)) = true).
  { destruct names; [contradiction | reflexivity]. }
  rewrite Ht. cbn [negb orb app].
  rewrite (run_git_completed _ _ _ _ _ _ H1 H2). cbn [dict_index dict_get String.eqb
    Ascii.eqb Bool.eqb ret]. cbn. rewrite Hrc. cbn [truthy].
  rewrite join_items_concat. reflexivity.
Qed.

End RegistryPaths.

(** * Further properties of the dispatch engine and the loop *)

Section Pairing.

Context {P : Platform}.

Lemma answers_result payload request_id :
  answers_to request_id (envelope "result" payload request_id).
Proof. exists "result", payload. auto. Qed.

Lemma answers_error payload request_id :
  answers_to request_id (envelope "error" payload request_id).
Proof. exists "error", payload. auto. Qed.

(** What the dispatch engine prints for one parsed line: at most one
    envelope, with the id of the request; nothing when it raises; and
    nothing on stderr. *)
Lemma handle_request_answers request (s : state P) :
  exists r s' emitted,
    handle_request request s = (r, s') /\
    st_stdout s' = (st_stdout s ++ emitted)%list /\
    st_stderr s' = st_stderr s /\
    length emitted <= 1 /\
    Forall (answers_to (id_of request)) emitted /\
    (forall e, r = inl e -> emitted = []).
Proof.
  assert (Hsilent : forall (r : exn + unit) (s0 : state P) request_id,
             st_stdout s0 = st_stdout s -> st_stderr s0 = st_stderr s ->
             exists r' s' emitted,
               (r, s0) = (r', s') /\
               st_stdout s' = (st_stdout s ++ emitted)%list /\
               st_stderr s' = st_stderr s /\
               length emitted <= 1 /\
               Forall (answers_to request_id) emitted /\
               (forall e, r' = inl e -> emitted = [])).
  { intros r s0 request_id H1 H2. exists r, s0, []. rewrite app_nil_r. cbn. auto 10. }
  assert (Hone : forall member payload request_id (s0 : state P),
             member = "result" \/ member = "error" ->
             st_stdout s0 = st_stdout s -> st_stderr s0 = st_stderr s ->
             exists r' s' emitted,
               (inr tt : exn + unit, emit s0 (envelope member payload request_id)) = (r', s') /\
               st_stdout s' = (st_stdout s ++ emitted)%list /\
               st_stderr s' = st_stderr s /\
               length emitted <= 1 /\
               Forall (answers_to request_id) emitted /\
               (forall e, r' = inl e -> emitted = [])).
  { intros member payload request_id s0 Hm H1 H2.
    do 3 eexists. split; [reflexivity|]. cbn. rewrite H1.
    split; [reflexivity|]. split; [exact H2|]. split; [cbn; lia|].
    split; [| discriminate].
    constructor; [| constructor]. exists member, payload. auto. }
  destruct request as [| b | n | f | x | l | request]; try (apply Hsilent; reflexivity).
  unfold handle_request, bind, py_get, ret. cbn [id_of].
  set (method := get_or request "method" JNull).
  set (params := get_or request "params" (JObj [])).
  set (request_id := get_or request "id" JNull).
  destruct (eq_str method "initialize").
  { unfold handle_initialize. rewrite send_response_emits. apply Hone; auto. }
  destruct (eq_str method "initialized"); [apply Hsilent; reflexivity|].
  destruct (eq_str method "tools/list").
  { unfold handle_tools_list. rewrite send_response_emits. apply Hone; auto. }
  destruct (eq_str method "tools/call").
  - unfold handle_tools_call, bind, py_get, ret, raise.
    destruct params; try (apply Hsilent; reflexivity).
    destruct (select_tool (get_or d "name" JNull)) as [t |].
    + destruct (handler_extends t (get_or d "arguments" (JObj [])) s)
        as (r & s1 & delta & Heq & _ & Hout & Herr).
      rewrite Heq. destruct r as [e | result]; [now apply Hsilent|].
      rewrite send_response_emits. now apply Hone; auto.
    + rewrite send_error_emits. apply Hone; auto.
  - destruct (is_not_None request_id); [| apply Hsilent; reflexivity].
    rewrite send_error_emits. apply Hone; auto.
Qed.

Lemma line_answer_bound line (s : state P) :
  exists out err,
    st_stdout (serve_line line s) = (st_stdout s ++ out)%list /\
    st_stderr (serve_line line s) = (st_stderr s ++ err)%list /\
    length out + length err <= 1.
Proof.
  unfold serve_line, try_except.
  destruct (json_loads line) as [e | request].
  - destruct (String.eqb (exn_class e) "JSONDecodeError").
    + rewrite send_error_emits. cbn.
      eexists [_], []. rewrite app_nil_r. repeat split; auto.
    + cbn. eexists [], [_]. rewrite app_nil_r. repeat split; auto.
  - destruct (handle_request_answers request s)
      as (r & s' & emitted & Heq & Hout & Herr & Hlen & _ & Hraise).
    rewrite Heq. destruct r as [e | []]; cbn.
    + rewrite (Hraise e eq_refl) in Hout. rewrite app_nil_r in Hout.
      eexists [], [_]. rewrite app_nil_r, Hout, Herr. repeat split; auto.
    + exists emitted, []. rewrite app_nil_r, Nat.add_0_r. auto.
Qed.

(** X11: whatever one line holds, the loop prints for it at most one line:
    either one envelope on stdout, a result or an error, carrying the id of
    the request (no id for a line that did not parse), or one diagnostic on
    stderr -- never both. *)
Theorem line_gets_at_most_one_answer line (s : state P) :
  exists out err,
    st_stdout (serve_line line s) = (st_stdout s ++ out)%list /\
    st_stderr (serve_line line s) = (st_stderr s ++ err)%list /\
    length out + length err <= 1 /\
    Forall (answers_to match json_loads line with
                       | inr request => id_of request
                       | inl _ => JNull
                       end) out.
Proof.
  unfold serve_line, try_except.
  destruct (json_loads line) as [e | request].
  - destruct (String.eqb (exn_class e) "JSONDecodeError").
    + rewrite send_error_emits. cbn.
      eexists [_], []. rewrite app_nil_r. repeat split; auto.
      constructor; [apply answers_error | constructor].
    + cbn. eexists [], [_]. rewrite app_nil_r. repeat split; auto.
  - destruct (handle_request_answers request s)
      as (r & s' & emitted & Heq & Hout & Herr & Hlen & Hall & Hraise).
    rewrite Heq. destruct r as [e | []]; cbn.
    + rewrite (Hraise e eq_refl) in Hout. rewrite app_nil_r in Hout.
      eexists [], [_]. rewrite app_nil_r, Hout, Herr. repeat split; auto.
    + exists emitted, []. rewrite app_nil_r, Nat.add_0_r. auto.
Qed.

(** X12: a message that names [initialized] is never answered, even when it
    carries an id; a message with an id and a method that is none of
    initialize, initialized, tools/list, tools/call is answered by one error
    envelope, code -32601, "Method not found: <method>", with that id; both
    ask nothing of the world. *)
Theorem unserved_methods request (s : state P) :
  (get_or request "method" JNull = JStr "initialized" ->
   handle_request (JObj request) s = (inr tt, s)) /\
  (~ In (get_or request "method" JNull)
        [JStr "initialize"; JStr "initialized"; JStr "tools/list"; JStr "tools/call"] ->
   is_not_None (get_or request "id" JNull) = true ->
   handle_request (JObj request) s =
     (inr tt,
      emit s (envelope "error"
                (JObj [("code", JInt (-32601));
                       ("message",
                        JStr ("Method not found: "
                                ++ py_str (get_or request "method" JNull)))])
                (get_or request "id" JNull)))).
Proof.
  unfold handle_request, bind, py_get, ret. split.
  - intros ->. reflexivity.
  - intros Hm Hid.
    repeat match goal with
           | |- (if eq_str ?m ?lit then _ else _) _ = _ =>
               let E := fresh "E" in
               destruct (eq_str m lit) eqn:E;
               [apply eq_str_true in E; exfalso; apply Hm; rewrite E; cbn; tauto|]
           end.
    rewrite Hid. apply send_error_emits.
Qed.

(** X13: a line that [json.loads] refuses does not stop the loop: for a
    [JSONDecodeError] one error envelope, code -32700, without id, is
    printed; any other exception of the parser is logged on stderr and not
    answered; nothing is asked of the world and the next line is read. *)
Theorem unparsable_line_is_skipped line e rest (s : state P) :
  line <> "" ->
  json_loads line = inl e ->
  run (line :: rest) s =
    run rest
      (if String.eqb (exn_class e) "JSONDecodeError" then
         emit s (JObj [("jsonrpc", JStr "2.0");
                       ("error",
                        JObj [("code", JInt (-32700));
                              ("message", JStr ("Parse error: " ++ exn_str e))])])
       else
         State (st_world s) (st_trace s) (st_stdout s)
               (st_stderr s ++ ["Unexpected error: " ++ exn_str e])).
Proof.
  intros Hline H. cbn [run].
  destruct (String.eqb_spec line ""); [contradiction|].
  f_equal. unfold serve_line, try_except. rewrite H.
  destruct (String.eqb (exn_class e) "JSONDecodeError"); reflexivity.
Qed.

(** X16: an exception raised while a request is handled does not stop the
    loop and is not answered: stdout is left as it was, one line
    "Unexpected error: <str(e)>" goes to stderr, and the next line is
    read. *)
Theorem failing_request_is_logged line request e rest (s s' : state P) :
  line <> "" ->
  json_loads line = inr request ->
  handle_request request s = (inl e, s') ->
  run (line :: rest) s =
    run rest
      (State (st_world s') (st_trace s') (st_stdout s)
             (st_stderr s ++ ["Unexpected error: " ++ exn_str e])).
Proof.
  intros Hline Hparse Hraise. cbn [run].
  destruct (String.eqb_spec line ""); [contradiction|].
  f_equal. rewrite (serve_line_parsed line request s Hparse), Hraise.
  destruct (handle_request_answers request s)
    as (r & s1 & emitted & Heq & Hout & Herr & _ & _ & Hnone).
  rewrite Hraise in Heq. injection Heq as <- <-.
  rewrite (Hnone e eq_refl), app_nil_r in Hout.
  cbn. now rewrite Hout, Herr.
Qed.

(** X14: the loop handles the lines in order, one after the other, and
    stops at the first empty read: what follows it is never handled. *)
Theorem run_in_sequence lines rest (s : state P) :
  ~ In "" lines ->
  run (lines ++ rest) s = run rest (run lines s) /\
  run (lines ++ "" :: rest) s = run lines s.
Proof.
  intros Hn. split.
  - revert s. induction lines as [| line lines IH]; intros s; cbn; [reflexivity|].
    destruct (String.eqb_spec line "") as [-> | _].
    + exfalso. apply Hn. now left.
    + apply IH. intros H. apply Hn. now right.
  - apply run_stops_at_eof.
Qed.

(** X15: the loop only ever appends to stdout and stderr, and a run over
    [n] lines adds at most [n] lines to the two together. *)
Theorem run_output_bound lines (s : state P) :
  exists out err,
    st_stdout (run lines s) = (st_stdout s ++ out)%list /\
    st_stderr (run lines s) = (st_stderr s ++ err)%list /\
    length out + length err <= length lines.
Proof.
  revert s. induction lines as [| line lines IH]; intros s; cbn.
  - exists [], []. rewrite !app_nil_r. auto.
  - destruct (String.eqb line "").
    + exists [], []. rewrite !app_nil_r. cbn. repeat split; lia.
    + destruct (line_answer_bound line s) as (o1 & e1 & Ho1 & He1 & Hl1).
      destruct (IH (serve_line line s)) as (o2 & e2 & Ho2 & He2 & Hl2).
      exists (o1 ++ o2)%list, (e1 ++ e2)%list.
      rewrite Ho2, Ho1, He2, He1, <- !app_assoc, !length_app.
      repeat split; lia.
Qed.

(** ** The server keeps nothing between requests *)

Lemma after_fresh (s : state P) : after s (fresh s) = s.
Proof. destruct s. unfold after, fresh. cbn. now rewrite !app_nil_r. Qed.

Lemma fresh_after (s d : state P) : fresh (after s d) = fresh d.
Proof. reflexivity. Qed.

Lemma after_assoc (s d x : state P) : after (after s d) x = after s (after d x).
Proof. unfold after. cbn. now rewrite !app_assoc. Qed.

Lemma stateless_ret {A} (a : A) : stateless (ret (P := P) a).
Proof. intros s. unfold ret. cbn. now rewrite after_fresh. Qed.

Lemma stateless_raise {A} e : stateless (raise (P := P) (A := A) e).
Proof. intros s. unfold raise. cbn. now rewrite after_fresh. Qed.

Lemma stateless_bind {A B} (m : M P A) (k : A -> M P B) :
  stateless m -> (forall a, stateless (k a)) -> stateless (bind m k).
Proof.
  intros Hm Hk s. unfold bind. rewrite (Hm s).
  destruct (m (fresh s)) as [[e | a] d]; cbn; [reflexivity|].
  rewrite (Hk a (after s d)), (Hk a d), fresh_after.
  destruct (k a (fresh d)) as [r x]. cbn. now rewrite after_assoc.
Qed.

Lemma stateless_try {A} (m : M P A) (h : exn -> M P A) :
  stateless m -> (forall e, stateless (h e)) -> stateless (try_except m h).
Proof.
  intros Hm Hh s. unfold try_except. rewrite (Hm s).
  destruct (m (fresh s)) as [[e | a] d]; cbn; [| reflexivity].
  rewrite (Hh e (after s d)), (Hh e d), fresh_after.
  destruct (h e (fresh d)) as [r x]. cbn. now rewrite after_assoc.
Qed.

Lemma stateless_path_exists cwd : stateless (path_exists (P := P) cwd).
Proof.
  intros s. unfold path_exists. cbn.
  destruct (os_path_exists (st_world s) cwd) as [r w].
  unfold after. cbn. now rewrite !app_nil_r.
Qed.

Lemma stateless_run_process command cwd :
  stateless (run_process (P := P) command cwd).
Proof.
  intros s. unfold run_process. cbn.
  destruct (subprocess_run (st_world s) command cwd) as [r w].
  unfold after. cbn. now rewrite !app_nil_r.
Qed.

Lemma stateless_print_stdout response : stateless (print_stdout (P := P) response).
Proof. intros s. unfold print_stdout, after. cbn. now rewrite !app_nil_r. Qed.

Lemma stateless_print_stderr text : stateless (print_stderr (P := P) text).
Proof. intros s. unfold print_stderr, after. cbn. now rewrite !app_nil_r. Qed.

Ltac stateless_step :=
  first
    [ apply stateless_ret
    | apply stateless_raise
    | apply stateless_path_exists
    | apply stateless_run_process
    | apply stateless_print_stdout
    | apply stateless_print_stderr
    | apply stateless_bind; [| intros ?]
    | apply stateless_try; [| intros ?]
    | match goal with
      | |- stateless (if ?b then _ else _) => destruct b
      | |- stateless (match ?x with _ => _ end) => destruct x
      end ].

Lemma stateless_handle_request request : stateless (handle_request (P := P) request).
Proof.
  unfold handle_request, handle_initialize, handle_tools_list, handle_tools_call,
    _send_response, _send_error, py_get.
  repeat stateless_step.
  all: destruct t; cbn [handler];
    unfold _handle_git_status, _handle_git_branch, _handle_git_commit,
      _handle_git_push, _handle_git_pull, _handle_git_log, _handle_git_add,
      create_commit, branch_summary, list_concat, str_join,
      _run_git_command, py_get, dict_index;
    cbv zeta; repeat stateless_step.
Qed.

Lemma serve_line_after line (s : state P) :
  serve_line line s = after s (serve_line line (fresh s)).
Proof.
  unfold serve_line.
  assert (H : stateless
                (try_except
                   match json_loads line with
                   | inl e =>
                       if String.eqb (exn_class e) "JSONDecodeError"
                       then _send_error (-32700) ("Parse error: " ++ exn_str e) JNull
                       else raise e
                   | inr request => handle_request request
                   end
                   (fun e => print_stderr ("Unexpected error: " ++ exn_str e)))).
  { apply stateless_try; [| intros e; apply stateless_print_stderr].
    destruct (json_loads line) as [e | request];
      [| apply stateless_handle_request].
    unfold _send_error. repeat stateless_step. }
  rewrite (H s). reflexivity.
Qed.

(** X17: the server keeps nothing between requests: what a run of the loop
    prints and does to the world depends on the lines and on the world
    only.  Run from any state, it does exactly what it does from the state
    with the same world and empty logs, appended to what was there. *)
Theorem run_is_stateless lines (s : state P) :
  run lines s = after s (run lines (fresh s)).
Proof.
  revert s. induction lines as [| line lines IH]; intros s; cbn [run].
  - now rewrite after_fresh.
  - destruct (String.eqb line ""); [now rewrite after_fresh|].
    rewrite (IH (serve_line line s)), (IH (serve_line line (fresh s))).
    rewrite (serve_line_after line s), fresh_after, after_assoc. reflexivity.
Qed.

End Pairing.

(** * Concrete runs *)

(** C1, as stated, fails: [initialize] sent without an [id] is answered. *)
Lemma initialize_without_id_is_answered :
  dict_get "id" [("jsonrpc", JStr "2.0"); ("method", JStr "initialize")] = None /\
  st_stdout
    (snd (handle_request (P := no_dirs)
            (JObj [("jsonrpc", JStr "2.0"); ("method", JStr "initialize")])
            (State (P := no_dirs) [] [] [] []))) =
    [JObj [("jsonrpc", JStr "2.0");
           ("result",
            JObj [("protocolVersion", JStr "2024-11-05");
                  ("capabilities", JObj [("tools", JObj [])]);
                  ("serverInfo",
                   JObj [("name", JStr "github-mcp-server");
                         ("version", JStr "1.0.0")])])]].
Proof. split; reflexivity. Qed.

Lemma silent_notification_witness :
  handle_request (P := no_dirs)
    (JObj [("jsonrpc", JStr "2.0"); ("method", JStr "notifications/cancelled")])
    (State (P := no_dirs) [] [] [] []) =
    (inr tt, State (P := no_dirs) [] [] [] []).
Proof.
  apply (notification_without_served_method_is_silent (P := no_dirs)).
  - reflexivity.
  - cbn. intros [H | [H | [H | []]]]; discriminate H.
Defined.

(** C2, as stated, fails: the directory is absent, the call is
    [git_commit] with [add_all], and the text does not begin with
    "Error:". *)
Lemma staging_fault_text_lacks_error_colon :
  handle_tools_call (P := no_dirs)
    (JObj [("name", JStr "git_commit");
           ("arguments",
            JObj [("repo_path", JStr "/nowhere"); ("message", JStr "update");
                  ("add_all", JBool true)])])
    (JInt 1)
    (State (P := no_dirs) [] [] [] []) =
    (inr tt,
     State (P := no_dirs) []
       [EvExists (JStr "/nowhere") (inr false)]
       [JObj [("jsonrpc", JStr "2.0");
              ("result",
               JObj [("content",
                      JArr [JObj [("type", JStr "text");
                                  ("text",
                                   JStr "Error adding files: Directory does not exist: /nowhere")]])]);
              ("id", JInt 1)]]
       []) /\
  is_fault (EvExists (JStr "/nowhere") (inr false)) = true /\
  prefix "Error:" "Error adding files: Directory does not exist: /nowhere" = false.
Proof. repeat split. Qed.

Lemma missing_argument_is_text_result_witness :
  exists r s' delta,
    handle_tools_call (P := no_dirs) (JObj [("name", JStr "git_status")]) (JInt 3)
      (State (P := no_dirs) [] [] [] []) = (r, s') /\
    st_trace s' = delta /\
    (missing_required git_status [] = true \/ existsb is_fault delta = true ->
     exists text,
       r = inr tt /\
       st_stdout s' = [envelope "result" (text_content (JStr text)) (JInt 3)] /\
       fault_report git_status [] delta text).
Proof.
  apply (tool_faults_are_text_results (P := no_dirs) git_status []
           [("name", JStr "git_status")] (JInt 3) (State (P := no_dirs) [] [] [] []));
    reflexivity.
Defined.

Lemma branch_name_required_witness :
  _handle_git_branch (P := one_repo)
    (JObj [("repo_path", JStr "/repo"); ("action", JStr "create")])
    (State (P := one_repo) [] [] [] []) =
    (inr (JStr "Error: branch_name is required for create action"),
     State (P := one_repo) [] [] [] []).
Proof.
  apply (proj2 (missing_argument_short_circuits (P := one_repo) git_branch
                  [("repo_path", JStr "/repo"); ("action", JStr "create")]
                  (State (P := one_repo) [] [] [] [])));
    reflexivity.
Defined.

Lemma staging_failure_witness :
  _handle_git_commit (P := one_repo)
    (JObj [("repo_path", JStr "/repo"); ("message", JStr "update");
           ("add_all", JBool true)])
    (State (P := one_repo)
       [inr (Completed 128 "" "fatal: not a git repository")] [] [] []) =
    (inr (JStr "Error adding files: fatal: not a git repository"),
     State (P := one_repo) []
       [EvExists (JStr "/repo") (inr true);
        EvRun [JStr "git"; JStr "add"; JStr "-A"] (JStr "/repo")
          (inr (Completed 128 "" "fatal: not a git repository"))]
       [] []) /\
  exists delta,
    [EvExists (JStr "/repo") (inr true);
     EvRun [JStr "git"; JStr "add"; JStr "-A"] (JStr "/repo")
       (inr (Completed 128 "" "fatal: not a git repository"))] = delta /\
    existsb is_commit_run delta = false.
Proof.
  apply (staging_failure_skips_commit (P := one_repo)
           [("repo_path", JStr "/repo"); ("message", JStr "update");
            ("add_all", JBool true)]
           (State (P := one_repo)
              [inr (Completed 128 "" "fatal: not a git repository")] [] [] [])
           (State (P := one_repo) []
              [EvExists (JStr "/repo") (inr true);
               EvRun [JStr "git"; JStr "add"; JStr "-A"] (JStr "/repo")
                 (inr (Completed 128 "" "fatal: not a git repository"))]
              [] [])
           [("success", JBool false); ("stdout", JStr "");
            ("stderr", JStr "fatal: not a git repository");
            ("returncode", JInt 128)]);
    reflexivity.
Defined.

Lemma missing_directory_witness :
  handler (P := no_dirs) git_log (JObj (plain_call git_log "/nowhere"))
    (State (P := no_dirs) [] [] [] []) =
    (inr (JStr "Error: Directory does not exist: /nowhere"),
     State (P := no_dirs) [] [EvExists (JStr "/nowhere") (inr false)] [] []).
Proof.
  apply (proj2 (missing_directory_is_reported (P := no_dirs)
                  (State (P := no_dirs) [] [] [] []) []) git_log "/nowhere");
    reflexivity.
Defined.

Lemma nonzero_exit_witness :
  exists result s',
    _run_git_command (P := one_repo) [JStr "git"; JStr "status"] (JStr "/repo")
      (State (P := one_repo)
         [inr (Completed 128 "" "fatal: not a git repository")] [] [] []) =
      (inr result, s') /\
    (dict_get "success" result = Some (JBool true) <-> 128%Z = 0%Z) /\
    (128%Z <> 0%Z -> dict_get "success" result = Some (JBool false)) /\
    dict_get "stdout" result = Some (JStr "") /\
    dict_get "stderr" result = Some (JStr "fatal: not a git repository") /\
    dict_get "returncode" result = Some (JInt 128).
Proof.
  apply (completed_run_success_iff_zero_exit (P := one_repo)
           [JStr "git"; JStr "status"] (JStr "/repo")
           (State (P := one_repo)
              [inr (Completed 128 "" "fatal: not a git repository")] [] [] [])
           [inr (Completed 128 "" "fatal: not a git repository")] []
           (Completed 128 "" "fatal: not a git repository"));
    reflexivity.
Defined.

Lemma unknown_tool_witness :
  handle_request (P := no_dirs)
    (JObj [("jsonrpc", JStr "2.0"); ("method", JStr "tools/call");
           ("params", JObj [("name", JStr "git_stash")]); ("id", JInt 7)])
    (State (P := no_dirs) [] [] [] []) =
    (inr tt,
     State (P := no_dirs) [] []
       [JObj [("jsonrpc", JStr "2.0");
              ("error",
               JObj [("code", JInt (-32601));
                     ("message", JStr "Unknown tool: git_stash")]);
              ("id", JInt 7)]]
       []).
Proof.
  apply (unknown_tool_is_protocol_error (P := no_dirs)
           [("jsonrpc", JStr "2.0"); ("method", JStr "tools/call");
            ("params", JObj [("name", JStr "git_stash")]); ("id", JInt 7)]
           [("name", JStr "git_stash")]
           (State (P := no_dirs) [] [] [] [])).
  - reflexivity.
  - reflexivity.
  - cbn. intuition discriminate.
Defined.

Lemma null_id_witness :
  handle_request (P := no_dirs)
    (JObj [("method", JStr "tools/list"); ("id", JNull)])
    (State (P := no_dirs) [] [] [] []) =
  handle_request (P := no_dirs)
    (JObj [("method", JStr "tools/list")])
    (State (P := no_dirs) [] [] [] []).
Proof.
  apply (proj1 (null_id_is_no_id (P := no_dirs)
                  [("method", JStr "tools/list"); ("id", JNull)]
                  (State (P := no_dirs) [] [] [] []) eq_refl)).
Defined.

Lemma empty_files_witness :
  handler (P := one_repo) git_add
    (JObj [("repo_path", JStr "/repo"); ("files", JArr [])])
    (State (P := one_repo) [] [] [] []) =
    (inr (JStr "Error: repo_path and files are required"),
     State (P := one_repo) [] [] [] []).
Proof.
  apply (proj1 (proj2 (falsy_argument_is_absent (P := one_repo) git_add "files"
                         (JArr []) [("repo_path", JStr "/repo"); ("files", JArr [])]
                         (State (P := one_repo) [] [] [] [])
                         ltac:(cbn; tauto) eq_refl eq_refl))).
  cbn. tauto.
Defined.

(** The scenarios of the protocol: a handshake, a call of [git_log], an
    unknown method, an unparsable line. *)
Example initialize_scenario :
  st_stdout
    (snd (handle_request (P := no_dirs)
            (JObj [("jsonrpc", JStr "2.0"); ("method", JStr "initialize");
                   ("params", JObj []); ("id", JInt 1)])
            (State (P := no_dirs) [] [] [] []))) =
    [JObj [("jsonrpc", JStr "2.0");
           ("result",
            JObj [("protocolVersion", JStr "2024-11-05");
                  ("capabilities", JObj [("tools", JObj [])]);
                  ("serverInfo",
                   JObj [("name", JStr "github-mcp-server");
                         ("version", JStr "1.0.0")])]);
           ("id", JInt 1)]].
Proof. reflexivity. Qed.

Example git_log_scenario :
  handle_request (P := one_repo)
    (JObj [("jsonrpc", JStr "2.0"); ("method", JStr "tools/call");
           ("params",
            JObj [("name", JStr "git_log");
                  ("arguments", JObj [("repo_path", JStr "/repo"); ("limit", JInt 3)])]);
           ("id", JInt 2)])
    (State (P := one_repo) [inr (Completed 0 "* 1f3a (HEAD) first" "")] [] [] []) =
    (inr tt,
     State (P := one_repo) []
       [EvExists (JStr "/repo") (inr true);
        EvRun [JStr "git"; JStr "log"; JStr "-3"; JStr "--oneline";
               JStr "--decorate"; JStr "--graph"]
          (JStr "/repo") (inr (Completed 0 "* 1f3a (HEAD) first" ""))]
       [JObj [("jsonrpc", JStr "2.0");
              ("result",
               text_content
                 (JStr ("Git log (last 3 commits):" ++ nl ++ "* 1f3a (HEAD) first")));
              ("id", JInt 2)]]
       []).
Proof. reflexivity. Qed.

Example unknown_method_scenario :
  handle_request (P := no_dirs)
    (JObj [("jsonrpc", JStr "2.0"); ("method", JStr "unknown_method"); ("id", JInt 9)])
    (State (P := no_dirs) [] [] [] []) =
    (inr tt,
     State (P := no_dirs) [] []
       [JObj [("jsonrpc", JStr "2.0");
              ("error",
               JObj [("code", JInt (-32601));
                     ("message", JStr "Method not found: unknown_method")]);
              ("id", JInt 9)]]
       []).
Proof. reflexivity. Qed.

Example unparsable_line_scenario :
  run (P := no_dirs) ["{bad"; ""; "never read"] (State (P := no_dirs) [] [] [] []) =
    State (P := no_dirs) [] []
      [JObj [("jsonrpc", JStr "2.0");
             ("error",
              JObj [("code", JInt (-32700));
                    ("message",
                     JStr "Parse error: Expecting value: line 1 column 1 (char 0)")])]]
      [].
Proof. reflexivity. Qed.

(** Arguments that are not a mapping: the handler raises, the loop logs it,
    and nothing is printed on stdout. *)
Example arguments_not_a_mapping :
  handle_request (P := one_repo)
    (JObj [("method", JStr "tools/call");
           ("params", JObj [("name", JStr "git_status"); ("arguments", JNull)]);
           ("id", JInt 4)])
    (State (P := one_repo) [] [] [] []) =
    (inl (Exn "AttributeError" "'NoneType' object has no attribute 'get'"),
     State (P := one_repo) [] [] [] []).
Proof. reflexivity. Qed.

(** ** Runs of the further properties *)

Lemma launch_failure_witness :
  _run_git_command (P := one_repo) [JStr "git"; JStr "status"] (JStr "/repo")
    (State (P := one_repo) [] [] [] []) =
    (inr [("success", JBool false);
          ("error", JStr "[Errno 2] No such file or directory: 'git'")],
     State (P := one_repo) []
       [EvExists (JStr "/repo") (inr true);
        EvRun [JStr "git"; JStr "status"] (JStr "/repo")
          (inl (Exn "FileNotFoundError" "[Errno 2] No such file or directory: 'git'"))]
       [] []).
Proof.
  apply (proj2 (invoker_reports_exceptions (P := one_repo)
                  [JStr "git"; JStr "status"] (JStr "/repo")
                  (State (P := one_repo) [] [] [] []))
           (Exn "FileNotFoundError" "[Errno 2] No such file or directory: 'git'")
           [] []);
    reflexivity.
Defined.

Lemma answered_call_witness :
  exists text s1,
    handler (P := one_repo) git_add
      (JObj [("repo_path", JStr "/repo"); ("files", JArr [JStr "a.txt"; JStr "b.txt"])])
      (State (P := one_repo) [inr (Completed 0 "" "")] [] [] []) =
      (inr (JStr text), s1) /\
    st_stdout s1 = [] /\
    handle_tools_call (P := one_repo)
      (JObj [("name", JStr "git_add");
             ("arguments",
              JObj [("repo_path", JStr "/repo");
                    ("files", JArr [JStr "a.txt"; JStr "b.txt"])])])
      (JInt 8)
      (State (P := one_repo) [inr (Completed 0 "" "")] [] [] []) =
      (inr tt, emit s1 (envelope "result" (text_content (JStr text)) (JInt 8))).
Proof.
  apply (well_typed_call_is_answered (P := one_repo) git_add
           [("repo_path", JStr "/repo"); ("files", JArr [JStr "a.txt"; JStr "b.txt"])]
           [("name", JStr "git_add");
            ("arguments",
             JObj [("repo_path", JStr "/repo");
                   ("files", JArr [JStr "a.txt"; JStr "b.txt"])])]
           (JInt 8)
           (State (P := one_repo) [inr (Completed 0 "" "")] [] [] []));
    reflexivity.
Defined.

Lemma files_as_string_witness :
  exists e,
    exn_class e = "TypeError" /\
    handle_tools_call (P := one_repo)
      (JObj [("name", JStr "git_add");
             ("arguments",
              JObj [("repo_path", JStr "/repo"); ("files", JStr "a.txt")])])
      (JInt 8)
      (State (P := one_repo) [inr (Completed 0 "" "")] [] [] []) =
      (inl e, State (P := one_repo) [inr (Completed 0 "" "")] [] [] []).
Proof.
  apply (git_add_files_not_a_list (P := one_repo)
           [("repo_path", JStr "/repo"); ("files", JStr "a.txt")]
           [("name", JStr "git_add");
            ("arguments",
             JObj [("repo_path", JStr "/repo"); ("files", JStr "a.txt")])]
           (JInt 8)
           (State (P := one_repo) [inr (Completed 0 "" "")] [] [] []));
    reflexivity.
Defined.

Lemma commit_follows_staging_witness :
  exists r s' delta,
    _handle_git_commit (P := one_repo)
      (JObj [("repo_path", JStr "/repo"); ("message", JStr "update");
             ("add_all", JBool true)])
      (State (P := one_repo)
         [inr (Completed 0 "" ""); inr (Completed 0 "[main 1f3a] update" "")]
         [] [] []) = (r, s') /\
    st_trace s' = delta /\
    (existsb is_fault delta = false ->
     exists staged committed,
       delta =
         [EvExists (JStr "/repo") (inr true);
          EvRun [JStr "git"; JStr "add"; JStr "-A"] (JStr "/repo") (inr staged);
          EvExists (JStr "/repo") (inr true);
          EvRun [JStr "git"; JStr "commit"; JStr "-m"; JStr "update"]
            (JStr "/repo") (inr committed)] /\
       r = inr (JStr ("Commit created successfully:" ++ nl ++ stdout committed))).
Proof.
  apply (commit_follows_staging (P := one_repo)
           [("repo_path", JStr "/repo"); ("message", JStr "update");
            ("add_all", JBool true)]
           (State (P := one_repo)
              [inr (Completed 0 "" ""); inr (Completed 0 "[main 1f3a] update" "")]
              [] [] []));
    reflexivity.
Defined.

Lemma unknown_branch_action_witness :
  _handle_git_branch (P := one_repo)
    (JObj [("repo_path", JStr "/repo"); ("action", JStr "rename")])
    (State (P := one_repo) [] [] [] []) =
    (inr (JStr "Error: Unknown action: rename"), State (P := one_repo) [] [] [] []).
Proof.
  apply (unknown_branch_action (P := one_repo)
           [("repo_path", JStr "/repo"); ("action", JStr "rename")]
           (State (P := one_repo) [] [] [] [])).
  - reflexivity.
  - reflexivity.
  - cbn. intros [H | [H | [H | [H | []]]]]; discriminate H.
Defined.

Lemma push_summary_witness :
  _handle_git_push (P := one_repo)
    (JObj [("repo_path", JStr "/repo"); ("branch", JStr "main"); ("force", JBool true)])
    (State (P := one_repo) [inr (Completed 0 "" "Everything up-to-date")] [] [] []) =
    (inr (JStr "Everything up-to-date"),
     State (P := one_repo) []
       [EvExists (JStr "/repo") (inr true);
        EvRun [JStr "git"; JStr "push"; JStr "--force"; JStr "origin"; JStr "main"]
          (JStr "/repo") (inr (Completed 0 "" "Everything up-to-date"))]
       [] []).
Proof.
  apply (push_summary (P := one_repo)
           [("repo_path", JStr "/repo"); ("branch", JStr "main"); ("force", JBool true)]
           (State (P := one_repo) [inr (Completed 0 "" "Everything up-to-date")] [] [] [])
           [inr (Completed 0 "" "Everything up-to-date")] []
           (Completed 0 "" "Everything up-to-date"));
    reflexivity.
Defined.

Lemma checkout_summary_witness :
  _handle_git_branch (P := one_repo)
    (JObj [("repo_path", JStr "/repo"); ("action", JStr "checkout");
           ("branch_name", JStr "dev")])
    (State (P := one_repo)
       [inr (Completed 0 "Your branch is up to date." "Switched to branch 'dev'")]
       [] [] []) =
    (inr (JStr "Switched to branch 'dev'"),
     State (P := one_repo) []
       [EvExists (JStr "/repo") (inr true);
        EvRun [JStr "git"; JStr "checkout"; JStr "dev"] (JStr "/repo")
          (inr (Completed 0 "Your branch is up to date." "Switched to branch 'dev'"))]
       [] []).
Proof.
  apply (checkout_summary (P := one_repo)
           [("repo_path", JStr "/repo"); ("action", JStr "checkout");
            ("branch_name", JStr "dev")]
           (State (P := one_repo)
              [inr (Completed 0 "Your branch is up to date." "Switched to branch 'dev'")]
              [] [] [])
           [inr (Completed 0 "Your branch is up to date." "Switched to branch 'dev'")] []
           (Completed 0 "Your branch is up to date." "Switched to branch 'dev'"));
    reflexivity.
Defined.

Lemma error_text_means_failure_witness :
  exists r s' delta,
    handler (P := one_repo) git_status (JObj [("repo_path", JStr "/repo")])
      (State (P := one_repo) [inr (Completed 128 "" "fatal: not a git repository")]
         [] [] []) = (r, s') /\
    st_trace s' = delta /\
    (forall text,
       r = inr (JStr text) ->
       prefix "Error" text = true ->
       delta = [] \/ existsb is_fault delta = true).
Proof.
  apply (error_text_means_failure (P := one_repo) git_status
           [("repo_path", JStr "/repo")]
           (State (P := one_repo) [inr (Completed 128 "" "fatal: not a git repository")]
              [] [] []));
    discriminate.
Defined.

Lemma method_not_found_witness :
  handle_request (P := no_dirs)
    (JObj [("jsonrpc", JStr "2.0"); ("id", JStr "req-1")])
    (State (P := no_dirs) [] [] [] []) =
    (inr tt,
     State (P := no_dirs) [] []
       [JObj [("jsonrpc", JStr "2.0");
              ("error",
               JObj [("code", JInt (-32601));
                     ("message", JStr "Method not found: None")]);
              ("id", JStr "req-1")]]
       []).
Proof.
  apply (proj2 (unserved_methods (P := no_dirs)
                  [("jsonrpc", JStr "2.0"); ("id", JStr "req-1")]
                  (State (P := no_dirs) [] [] [] []))).
  - cbn. intros [H | [H | [H | [H | []]]]]; discriminate H.
  - reflexivity.
Defined.

Lemma unparsable_line_witness :
  run (P := no_dirs) ["{bad"; "[1, 2"] (State (P := no_dirs) [] [] [] []) =
  run (P := no_dirs) ["[1, 2"]
    (State (P := no_dirs) [] []
       [JObj [("jsonrpc", JStr "2.0");
              ("error",
               JObj [("code", JInt (-32700));
                     ("message",
                      JStr "Parse error: Expecting value: line 1 column 1 (char 0)")])]]
       []).
Proof.
  apply (unparsable_line_is_skipped (P := no_dirs) "{bad"
           (Exn "JSONDecodeError" "Expecting value: line 1 column 1 (char 0)")
           ["[1, 2"] (State (P := no_dirs) [] [] [] [])).
  - discriminate.
  - reflexivity.
Defined.

Lemma run_in_sequence_witness :
  run (P := no_dirs) (["{bad"; "[1, 2"] ++ ["x"]) (State (P := no_dirs) [] [] [] []) =
    run (P := no_dirs) ["x"]
      (run (P := no_dirs) ["{bad"; "[1, 2"] (State (P := no_dirs) [] [] [] [])) /\
  run (P := no_dirs) (["{bad"; "[1, 2"] ++ "" :: ["x"])
    (State (P := no_dirs) [] [] [] []) =
    run (P := no_dirs) ["{bad"; "[1, 2"] (State (P := no_dirs) [] [] [] []).
Proof.
  apply (run_in_sequence (P := no_dirs) ["{bad"; "[1, 2"] ["x"]
           (State (P := no_dirs) [] [] [] [])).
  cbn. intros [H | [H | []]]; discriminate H.
Defined.

Lemma failing_request_witness :
  run (P := null_arguments) ["status"; "{bad"]
    (State (P := null_arguments) [] [] [] []) =
  run (P := null_arguments) ["{bad"]
    (State (P := null_arguments) [] [] []
       ["Unexpected error: 'NoneType' object has no attribute 'get'"]).
Proof.
  apply (failing_request_is_logged (P := null_arguments) "status"
           (JObj [("method", JStr "tools/call");
                  ("params", JObj [("name", JStr "git_status"); ("arguments", JNull)]);
                  ("id", JInt 4)])
           (Exn "AttributeError" "'NoneType' object has no attribute 'get'")
           ["{bad"]
           (State (P := null_arguments) [] [] [] [])
           (State (P := null_arguments) [] [] [] [])).
  - discriminate.
  - reflexivity.
  - reflexivity.
Defined.

Lemma default_limit_witness :
  handler (P := one_repo) git_log (JObj [("repo_path", JStr "/repo")])
    (State (P := one_repo) [inr (Completed 0 "* 1f3a first" "")] [] [] []) =
  handler (P := one_repo) git_log
    (JObj [("limit", JInt 10); ("repo_path", JStr "/repo")])
    (State (P := one_repo) [inr (Completed 0 "* 1f3a first" "")] [] [] []).
Proof.
  apply (declared_defaults_are_used (P := one_repo) git_log "limit" (JInt 10)
           [("repo_path", JStr "/repo")]
           (State (P := one_repo) [inr (Completed 0 "* 1f3a first" "")] [] [] [])).
  - vm_compute. left. reflexivity.
  - reflexivity.
Defined.

Lemma action_enum_witness :
  In (JStr "rename") action_enum <-> ~ unknown_action (P := one_repo) (JStr "rename").
Proof.
  apply (action_enum_matches_handler (P := one_repo) (JStr "rename")
           (State (P := one_repo) [] [] [] [])).
  reflexivity.
Defined.

Lemma git_add_summary_witness :
  _handle_git_add (P := one_repo)
    (JObj [("repo_path", JStr "/repo"); ("files", JArr [JStr "a.txt"; JStr "b.txt"])])
    (State (P := one_repo) [inr (Completed 0 "" "")] [] [] []) =
    (inr (JStr "Files staged successfully: a.txt, b.txt"),
     State (P := one_repo) []
       [EvExists (JStr "/repo") (inr true);
        EvRun [JStr "git"; JStr "add"; JStr "a.txt"; JStr "b.txt"] (JStr "/repo")
          (inr (Completed 0 "" ""))]
       [] []).
Proof.
  apply (git_add_summary (P := one_repo)
           [("repo_path", JStr "/repo"); ("files", JArr [JStr "a.txt"; JStr "b.txt"])]
           ["a.txt"; "b.txt"]
           (State (P := one_repo) [inr (Completed 0 "" "")] [] [] [])
           [inr (Completed 0 "" "")] [] (Completed 0 "" "")).
  - reflexivity.
  - reflexivity.
  - discriminate.
  - reflexivity.
  - reflexivity.
  - reflexivity.
Defined.

(** The converse of X10 fails for [git_push], whose text on success is the
    raw output of git. *)
Example push_output_may_begin_with_error :
  fst (_handle_git_push (P := one_repo) (JObj [("repo_path", JStr "/repo")])
         (State (P := one_repo) [inr (Completed 0 "Error: hook declined" "")] [] [] [])) =
    inr (JStr "Error: hook declined").
Proof. reflexivity. Qed.
